(** * Command Generator: the prompt, the history and the submission flow

    A shallow embedding of [src/generate-command.tsx] and the properties of
    its prompt assembly, its history bookkeeping and its submission handler.

    JavaScript strings are sequences of UTF-16 code units, and [length],
    [trim] and [includes] work on code units; a string is therefore a list of
    code units here. *)

From Stdlib Require Import String Ascii.
From stdpp Require Import gmap list.

Local Open Scope N_scope.
Local Open Scope list_scope.

(** ** JavaScript strings *)

Abbreviation jsstring := (list N).

(** The code units of a literal of the source (all of them are ASCII). *)
Fixpoint utf16 (s : string) : jsstring :=
  match s with
  | EmptyString => []
  | String c rest => N_of_ascii c :: utf16 rest
  end.

(** The line feed of the template literals, ["\n"]. *)
Definition LF : N := 10.

(** ToBoolean on a string: every string but the empty one is truthy. *)
Definition truthy (s : jsstring) : bool :=
  match s with
  | [] => false
  | _ :: _ => true
  end.

(** ToBoolean on [string | undefined]. *)
Definition truthy_opt (v : option jsstring) : bool :=
  match v with
  | Some s => truthy s
  | None => false
  end.

(** WhiteSpace and LineTerminator of ECMAScript, the code units that
    [String.prototype.trim] strips. *)
Definition isWhiteSpace (c : N) : bool :=
  bool_decide (c ∈ [9; 10; 11; 12; 13; 32; 160; 5760; 8232; 8233; 8239; 8287; 12288; 65279])
  || (8192 <=? c) && (c <=? 8202).

Fixpoint trimStart (s : jsstring) : jsstring :=
  match s with
  | [] => []
  | c :: rest => if isWhiteSpace c then trimStart rest else s
  end.

Definition trimEnd (s : jsstring) : jsstring := reverse (trimStart (reverse s)).

Definition trim (s : jsstring) : jsstring := trimEnd (trimStart s).

(** [hay.startsWith(needle)]. *)
Fixpoint startsWith (hay needle : jsstring) : bool :=
  match needle, hay with
  | [], _ => true
  | _ :: _, [] => false
  | n :: needle', h :: hay' => bool_decide (h = n) && startsWith hay' needle'
  end.

(** [hay.includes(needle)]: [needle] occurs at some position of [hay]. *)
Fixpoint includes (hay needle : jsstring) : bool :=
  startsWith hay needle ||
  match hay with
  | [] => false
  | _ :: hay' => includes hay' needle
  end.

(** [parts.join(sep)]. *)
Fixpoint join (sep : jsstring) (parts : list jsstring) : jsstring :=
  match parts with
  | [] => []
  | [p] => p
  | p :: rest => p ++ sep ++ join sep rest
  end.

(** ** Constants *)

Definition HISTORY_KEY : jsstring := utf16 "command-history".
Definition MAX_HISTORY : nat := 20.

(** ** Context *)

(** [interface Context]: every field is optional, [None] is [undefined]. *)
Record Context := mkContext {
  selectedText : option jsstring;
  currentApp : option jsstring;
  currentDirectory : option jsstring;
}.

Definition RELEVANT_APPS : gset jsstring :=
  list_to_set (utf16 <$>
    [ "Terminal"; "iTerm2"; "iTerm"; "Hyper"; "Warp"; "Alacritty"; "kitty";
      "Code"; "Cursor"; "Zed"; "Sublime Text"; "Atom"; "WebStorm";
      "IntelliJ IDEA"; "PyCharm"; "Visual Studio Code" ]%string).

(** [buildPrompt], lines 130-149: three guarded pushes onto [parts], then the
    template with the "Context:" header, or the bare request. *)
Definition buildPrompt (userPrompt : jsstring) (context : Context) : jsstring :=
  let parts : list jsstring := [] in
  let parts :=
    match currentApp context with
    | Some app =>
        if truthy app && bool_decide (app ∈ RELEVANT_APPS)
        then parts ++ [utf16 "Current app: " ++ app]
        else parts
    | None => parts
    end in
  let parts :=
    match currentDirectory context with
    | Some dir =>
        if truthy dir
        then parts ++ [utf16 "Current directory: " ++ dir]
        else parts
    | None => parts
    end in
  let parts :=
    match selectedText context with
    | Some sel =>
        if truthy sel && bool_decide (length sel < 2000)%nat
        then parts ++ [utf16 "Selected text:" ++ [LF] ++ sel]
        else parts
    | None => parts
    end in
  if bool_decide (0 < length parts)%nat
  then utf16 "Context:" ++ [LF] ++ join [LF] parts ++ [LF; LF]
         ++ utf16 "Request: " ++ userPrompt
  else userPrompt.

(** ** The world around the command

    Thrown values: the handler of [generateCommand] tells [Error] objects,
    whose [message] it shows, from anything else. *)
Inductive thrown :=
| ErrorObject (message : jsstring)
| OtherValue.

(** How a call ends: it returns (a promise resolves) or it throws (a promise
    rejects). *)
Inductive outcome (A : Type) :=
| Returns (a : A)
| Throws (e : thrown).
Arguments Returns {A} a.
Arguments Throws {A} e.

(** The AppleScript texts that [gatherContext] runs, in the order of the
    source: the frontmost visible application, the custom title of the
    Terminal tab, the name of the Terminal window, the path variable of the
    iTerm2 session. *)
Inductive script :=
| appScript
| terminalDirScript
| terminalWindowScript
| itermDirScript.

(** A block of [message.content]: [type === "text"] with its [text], or
    another type. *)
Inductive ContentBlock :=
| TextBlock (text : jsstring)
| OtherBlock.

(** The body of [client.messages.create]. *)
Record MessageRequest := mkRequest {
  model : jsstring;
  max_tokens : N;
  system : jsstring;
  user_content : jsstring;
}.

Inductive ToastStyle :=
| Success
| Failure.

(** The calls that leave the command, as the collaborators see them. *)
Inductive Call :=
| Call_showToast (style : ToastStyle) (title : jsstring) (message : option jsstring)
| Call_showHUD (title : jsstring)
| Call_Clipboard_copy (text : jsstring)
| Call_Clipboard_paste (text : jsstring)
| Call_closeMainWindow
| Call_getSelectedText
| Call_execSync (s : script)
| Call_Anthropic (apiKey : jsstring)
| Call_messages_create (request : MessageRequest)
| Call_LocalStorage_getItem (key : jsstring)
| Call_LocalStorage_setItem (key value : jsstring)
| Call_LocalStorage_removeItem (key : jsstring).

(** What the collaborators answer.  A [Some e] in the storage fields makes
    the call reject with [e].  The toasts, the HUD, the window and the
    clipboard are taken to resolve. *)
Record Env := mkEnv {
  anthropicApiKey : jsstring;
  getSelectedText_outcome : outcome jsstring;
  execSync_outcome : script → outcome jsstring;
  Anthropic_outcome : jsstring → outcome ();
  messages_create_outcome : MessageRequest → outcome (list ContentBlock);
  getItem_rejects : option thrown;
  setItem_rejects : option thrown;
  removeItem_rejects : option thrown;
}.

(** A callback handed to [setTimeout]; the source has one,
    [() => setListKey((k) => k + 1)]. *)
Inductive Callback :=
| bumpListKey.

(** The four [useState] cells of [Command], the extension's [LocalStorage],
    the pending [setTimeout] callbacks and the calls made so far (oldest
    first).  [listKey] counts recalls; it stays far below 2^53, where the
    numbers of JavaScript add exactly, and is a natural number here. *)
Record World := mkWorld {
  searchText : jsstring;
  isLoading : bool;
  history : list jsstring;
  listKey : N;
  localStorage : gmap jsstring jsstring;
  timeouts : list Callback;
  calls : list Call;
}.

Definition with_searchText (v : jsstring) (w : World) : World :=
  mkWorld v (isLoading w) (history w) (listKey w) (localStorage w) (timeouts w) (calls w).
Definition with_isLoading (v : bool) (w : World) : World :=
  mkWorld (searchText w) v (history w) (listKey w) (localStorage w) (timeouts w) (calls w).
Definition with_history (v : list jsstring) (w : World) : World :=
  mkWorld (searchText w) (isLoading w) v (listKey w) (localStorage w) (timeouts w) (calls w).
Definition with_listKey (v : N) (w : World) : World :=
  mkWorld (searchText w) (isLoading w) (history w) v (localStorage w) (timeouts w) (calls w).
Definition with_localStorage (v : gmap jsstring jsstring) (w : World) : World :=
  mkWorld (searchText w) (isLoading w) (history w) (listKey w) v (timeouts w) (calls w).
Definition with_timeouts (v : list Callback) (w : World) : World :=
  mkWorld (searchText w) (isLoading w) (history w) (listKey w) (localStorage w) v (calls w).
Definition with_calls (v : list Call) (w : World) : World :=
  mkWorld (searchText w) (isLoading w) (history w) (listKey w) (localStorage w) (timeouts w) v.

(** ** Computations: a world in, an outcome and a world out *)

Definition M (A : Type) : Type := World → outcome A * World.

Definition ret {A} (a : A) : M A := λ w, (Returns a, w).

Definition throw {A} (e : thrown) : M A := λ w, (Throws e, w).

Definition bind {A B} (m : M A) (k : A → M B) : M B :=
  λ w, match m w with
       | (Returns a, w') => k a w'
       | (Throws e, w') => (Throws e, w')
       end.

(** [try { body } catch (error) { handler }]. *)
Definition try_catch {A} (body : M A) (handler : thrown → M A) : M A :=
  λ w, match body w with
       | (Returns a, w') => (Returns a, w')
       | (Throws e, w') => handler e w'
       end.

Declare Scope js_scope.
Delimit Scope js_scope with js.
Notation "x <- m ;; k" := (bind m (λ x, k))
  (at level 100, m at next level, k at level 200, right associativity) : js_scope.
Notation "m ;; k" := (bind m (λ _, k))
  (at level 100, k at level 200, right associativity) : js_scope.

(** One call to a collaborator: it joins [calls] and ends as told. *)
Definition call {A} (c : Call) (o : outcome A) : M A :=
  λ w, (o, with_calls (calls w ++ [c]) w).

Definition modify (f : World → World) : M () := λ w, (Returns (), f w).

(** ** Built-ins of the host

    [String.prototype.toLowerCase] follows the Unicode case tables and
    [JSON.parse] / [JSON.stringify] the JSON grammar; the development is
    stated for any such functions.  [JSON_parse] answers [Throws] where
    [JSON.parse] throws its SyntaxError; the declared result type of
    [getHistory] is [string[]], so a parsed value is a list of strings. *)
Class Host := {
  toLowerCase : jsstring → jsstring;
  JSON_parse : jsstring → outcome (list jsstring);
  JSON_stringify : list jsstring → jsstring;
}.

(** ** The system prompt, lines 26-55 *)

Definition quoted (s : string) : jsstring := [34] ++ utf16 s ++ [34].

Definition SYSTEM_PROMPT : jsstring :=
  join [LF]
    [ utf16 "You generate CLI commands. Output ONLY the raw command - no explanations, no preamble, no markdown, no code blocks, no backticks, no commentary. Just the command itself, nothing else.";
      [];
      utf16 "Rules:";
      utf16 "- Output ONLY the command, absolutely nothing else";
      utf16 "- No " ++ quoted "Here's the command:" ++ utf16 " or similar phrases";
      utf16 "- No explanations before or after";
      utf16 "- If multiple commands needed, chain with && or ;";
      utf16 "- Keep it simple - prefer the most straightforward solution";
      utf16 "- Context (current app, directory, selected text) is provided for reference - only use it if directly relevant to the request. Ignore irrelevant context.";
      [];
      utf16 "Examples:";
      utf16 "User: " ++ quoted "find all js files modified in the last day";
      utf16 "find . -name " ++ quoted "*.js" ++ utf16 " -mtime -1";
      [];
      utf16 "User: " ++ quoted "list disk usage sorted by size";
      utf16 "du -sh * | sort -h";
      [];
      utf16 "User: " ++ quoted "kill process on port 3000";
      utf16 "lsof -ti:3000 | xargs kill -9";
      [];
      utf16 "User: " ++ quoted "create a p5.js sketch with a circle";
      utf16 "cat > sketch.js << 'EOF'";
      utf16 "function setup() {";
      utf16 "  createCanvas(400, 400);";
      utf16 "}";
      utf16 "function draw() {";
      utf16 "  background(220);";
      utf16 "  circle(200, 200, 100);";
      utf16 "}";
      utf16 "EOF" ].

(** ** The command *)

Section Command.
Context `{Host} (env : Env).

Local Open Scope js_scope.

(** *** Collaborators *)

Definition showToast (style : ToastStyle) (title : jsstring)
    (message : option jsstring) : M () :=
  call (Call_showToast style title message) (Returns ()).

Definition showHUD (title : jsstring) : M () :=
  call (Call_showHUD title) (Returns ()).

Definition Clipboard_copy (text : jsstring) : M () :=
  call (Call_Clipboard_copy text) (Returns ()).

Definition Clipboard_paste (text : jsstring) : M () :=
  call (Call_Clipboard_paste text) (Returns ()).

Definition closeMainWindow : M () :=
  call Call_closeMainWindow (Returns ()).

Definition getSelectedText : M jsstring :=
  call Call_getSelectedText (getSelectedText_outcome env).

Definition execSync (s : script) : M jsstring :=
  call (Call_execSync s) (execSync_outcome env s).

Definition new_Anthropic (apiKey : jsstring) : M () :=
  call (Call_Anthropic apiKey) (Anthropic_outcome env apiKey).

Definition messages_create (request : MessageRequest) : M (list ContentBlock) :=
  call (Call_messages_create request) (messages_create_outcome env request).

Definition LocalStorage_getItem (key : jsstring) : M (option jsstring) :=
  λ w, match getItem_rejects env with
       | Some e => call (Call_LocalStorage_getItem key) (Throws e) w
       | None => call (Call_LocalStorage_getItem key) (Returns (localStorage w !! key)) w
       end.

Definition LocalStorage_setItem (key value : jsstring) : M () :=
  match setItem_rejects env with
  | Some e => call (Call_LocalStorage_setItem key value) (Throws e)
  | None =>
      call (Call_LocalStorage_setItem key value) (Returns ()) ;;
      modify (λ w, with_localStorage (<[key := value]> (localStorage w)) w)
  end.

Definition LocalStorage_removeItem (key : jsstring) : M () :=
  match removeItem_rejects env with
  | Some e => call (Call_LocalStorage_removeItem key) (Throws e)
  | None =>
      call (Call_LocalStorage_removeItem key) (Returns ()) ;;
      modify (λ w, with_localStorage (delete key (localStorage w)) w)
  end.

(** *** React state *)

Definition setSearchText (v : jsstring) : M () := modify (with_searchText v).
Definition setIsLoading (v : bool) : M () := modify (with_isLoading v).
Definition setHistory (v : list jsstring) : M () := modify (with_history v).
Definition setListKey (f : N → N) : M () := modify (λ w, with_listKey (f (listKey w)) w).
Definition setTimeout (cb : Callback) : M () :=
  modify (λ w, with_timeouts (timeouts w ++ [cb]) w).

(** *** Context acquisition, lines 63-109 *)

Definition runAppleScript (s : script) : M (option jsstring) :=
  try_catch (out <- execSync s ;; ret (Some (trim out)))
            (λ _, ret None).

Definition gatherContext : M Context :=
  selectedText <-
    try_catch (text <- getSelectedText ;; ret (Some text)) (λ _, ret None) ;;
  currentApp <- runAppleScript appScript ;;
  if bool_decide (currentApp = Some (utf16 "Terminal")) then
    dir <- runAppleScript terminalDirScript ;;
    if negb (truthy_opt dir) then
      currentDirectory <- runAppleScript terminalWindowScript ;;
      ret (mkContext selectedText currentApp currentDirectory)
    else
      ret (mkContext selectedText currentApp dir)
  else if bool_decide (currentApp = Some (utf16 "iTerm2"))
          || bool_decide (currentApp = Some (utf16 "iTerm")) then
    currentDirectory <- runAppleScript itermDirScript ;;
    ret (mkContext selectedText currentApp currentDirectory)
  else
    ret (mkContext selectedText currentApp None).

(** *** History, lines 151-162 *)

Definition getHistory : M (list jsstring) :=
  stored <- LocalStorage_getItem HISTORY_KEY ;;
  match stored with
  | Some text =>
      if truthy text then
        match JSON_parse text with
        | Returns parsed => ret parsed
        | Throws e => throw e
        end
      else ret []
  | None => ret []
  end.

Definition addToHistory (prompt : jsstring) : M (list jsstring) :=
  history <- getHistory ;;
  let filtered := filter (λ h, h ≠ prompt) history in
  let updated := take MAX_HISTORY (prompt :: filtered) in
  LocalStorage_setItem HISTORY_KEY (JSON_stringify updated) ;;
  ret updated.

(** *** Submission, lines 174-232 *)

(** The object literal of lines 192-197. *)
Definition messageRequest (fullPrompt : jsstring) : MessageRequest :=
  mkRequest (utf16 "claude-haiku-4-5-20251001") 256 SYSTEM_PROMPT fullPrompt.

Definition generateCommand (prompt : jsstring) (copyOnly : bool) : M () :=
  if negb (truthy (trim prompt)) then
    showToast Failure (utf16 "Please enter a description") None
  else
    setIsLoading true ;;
    try_catch
      (new_Anthropic (anthropicApiKey env) ;;
       context <- gatherContext ;;
       let fullPrompt := buildPrompt prompt context in
       message <- messages_create (messageRequest fullPrompt) ;;
       command <-
         match message with
         | TextBlock text :: _ => ret (trim text)
         | OtherBlock :: _ => ret []
         | [] => throw (ErrorObject (utf16 "Cannot read properties of undefined (reading 'type')"))
         end ;;
       if negb (truthy command) then
         showToast Failure (utf16 "No command generated") None ;;
         setIsLoading false
       else
         updatedHistory <- addToHistory prompt ;;
         setHistory updatedHistory ;;
         closeMainWindow ;;
         if copyOnly then
           Clipboard_copy command ;;
           showHUD (utf16 "Command copied")
         else
           Clipboard_paste command ;;
           showHUD (utf16 "Command pasted"))
      (λ error,
         let errorMessage :=
           match error with
           | ErrorObject message => message
           | OtherValue => utf16 "Unknown error"
           end in
         showToast Failure (utf16 "Error") (Some errorMessage) ;;
         setIsLoading false).

(** *** The list, lines 234-236 *)

Definition filteredHistory (searchText : jsstring) (history : list jsstring)
    : list jsstring :=
  if truthy (trim searchText)
  then filter (λ item, includes (toLowerCase item) (toLowerCase searchText) = true) history
  else history.

(** *** Actions and effects of [Command] *)

(** The mount effect, lines 170-172. *)
Definition Command_useEffect : M () :=
  stored <- getHistory ;;
  setHistory stored.

(** "Use Prompt", lines 275-285. *)
Definition usePrompt_onAction (item : jsstring) : M () :=
  setSearchText item ;;
  setTimeout bumpListKey.

(** The event loop runs a pending callback. *)
Definition runCallback (cb : Callback) : M () :=
  match cb with
  | bumpListKey => setListKey (λ k, k + 1)
  end.

Fixpoint runCallbacks (cbs : list Callback) : M () :=
  match cbs with
  | [] => ret ()
  | cb :: rest => runCallback cb ;; runCallbacks rest
  end.

Definition runTimeouts : M () :=
  λ w, runCallbacks (timeouts w) (with_timeouts [] w).

(** "Clear History", lines 291-295. *)
Definition clearHistory_onAction : M () :=
  LocalStorage_removeItem HISTORY_KEY ;;
  setHistory [] ;;
  showToast Success (utf16 "History cleared") None.

End Command.

(** ** A host for closed examples

    The built-ins on the inputs that the examples use: [toLowerCase] on Basic
    Latin, where it maps A-Z to a-z and nothing else, and JSON texts that are
    arrays of strings.  Every other text is answered with the SyntaxError. *)

Definition ascii_toLowerCase (s : jsstring) : jsstring :=
  (λ c, if (65 <=? c) && (c <=? 90) then c + 32 else c) <$> s.

Definition hexDigit (n : N) : N := if n <? 10 then 48 + n else 87 + n.

(** UnicodeEscape: [\uXXXX], lower-case digits. *)
Definition unicodeEscape (c : N) : jsstring :=
  [92; 117; hexDigit (c / 4096 mod 16); hexDigit (c / 256 mod 16);
   hexDigit (c / 16 mod 16); hexDigit (c mod 16)].

Definition isLeadingSurrogate (c : N) : bool := (55296 <=? c) && (c <=? 56319).
Definition isTrailingSurrogate (c : N) : bool := (56320 <=? c) && (c <=? 57343).

Definition quoteJSONChar (c : N) : jsstring :=
  if c =? 8 then [92; 98]
  else if c =? 9 then [92; 116]
  else if c =? 10 then [92; 110]
  else if c =? 12 then [92; 102]
  else if c =? 13 then [92; 114]
  else if c =? 34 then [92; 34]
  else if c =? 92 then [92; 92]
  else if (c <? 32) || isLeadingSurrogate c || isTrailingSurrogate c then unicodeEscape c
  else [c].

Fixpoint quoteJSONBody (s : jsstring) : jsstring :=
  match s with
  | [] => []
  | c :: rest =>
      if isLeadingSurrogate c then
        match rest with
        | d :: rest' =>
            if isTrailingSurrogate d then c :: d :: quoteJSONBody rest'
            else quoteJSONChar c ++ quoteJSONBody rest
        | [] => quoteJSONChar c
        end
      else quoteJSONChar c ++ quoteJSONBody rest
  end.

(** QuoteJSONString. *)
Definition quoteJSONString (s : jsstring) : jsstring :=
  [34] ++ quoteJSONBody s ++ [34].

Definition ascii_JSON_stringify (l : list jsstring) : jsstring :=
  [91] ++ join [44] (quoteJSONString <$> l) ++ [93].

Definition isJSONWhiteSpace (c : N) : bool :=
  (c =? 9) || (c =? 10) || (c =? 13) || (c =? 32).

Fixpoint skipJSONWhiteSpace (s : jsstring) : jsstring :=
  match s with
  | [] => []
  | c :: rest => if isJSONWhiteSpace c then skipJSONWhiteSpace rest else s
  end.

Definition hexValue (c : N) : option N :=
  if (48 <=? c) && (c <=? 57) then Some (c - 48)
  else if (97 <=? c) && (c <=? 102) then Some (c - 87)
  else if (65 <=? c) && (c <=? 70) then Some (c - 55)
  else None.

Definition simpleEscape (c : N) : option N :=
  if c =? 34 then Some 34
  else if c =? 92 then Some 92
  else if c =? 47 then Some 47
  else if c =? 98 then Some 8
  else if c =? 102 then Some 12
  else if c =? 110 then Some 10
  else if c =? 114 then Some 13
  else if c =? 116 then Some 9
  else None.

(** The characters of a JSON string after its opening quote, and the text
    after its closing quote. *)
Fixpoint parseJSONStringBody (s : jsstring) : option (jsstring * jsstring) :=
  match s with
  | [] => None
  | c :: rest =>
      if c =? 34 then Some ([], rest)
      else if c =? 92 then
        match rest with
        | [] => None
        | e :: rest1 =>
            if e =? 117 then
              match rest1 with
              | a :: b :: c' :: d :: rest2 =>
                  match hexValue a, hexValue b, hexValue c', hexValue d with
                  | Some a, Some b, Some c', Some d =>
                      match parseJSONStringBody rest2 with
                      | Some (str, after) =>
                          Some ((a * 4096 + b * 256 + c' * 16 + d) :: str, after)
                      | None => None
                      end
                  | _, _, _, _ => None
                  end
              | _ => None
              end
            else
              match simpleEscape e, parseJSONStringBody rest1 with
              | Some x, Some (str, after) => Some (x :: str, after)
              | _, _ => None
              end
        end
      else if c <? 32 then None
      else
        match parseJSONStringBody rest with
        | Some (str, after) => Some (c :: str, after)
        | None => None
        end
  end.

(** The elements of an array from its first string on, up to the closing
    bracket and the end of the text. *)
Fixpoint parseJSONElements (fuel : nat) (s : jsstring) : option (list jsstring) :=
  match fuel with
  | O => None
  | S fuel' =>
      match skipJSONWhiteSpace s with
      | 34 :: rest =>
          match parseJSONStringBody rest with
          | Some (str, after) =>
              match skipJSONWhiteSpace after with
              | 44 :: more => cons str <$> parseJSONElements fuel' more
              | 93 :: tail =>
                  if bool_decide (skipJSONWhiteSpace tail = []) then Some [str] else None
              | _ => None
              end
          | None => None
          end
      | _ => None
      end
  end.

Definition ascii_JSON_parse (s : jsstring) : outcome (list jsstring) :=
  let parsed :=
    match skipJSONWhiteSpace s with
    | 91 :: rest =>
        match skipJSONWhiteSpace rest with
        | 93 :: tail =>
            if bool_decide (skipJSONWhiteSpace tail = []) then Some [] else None
        | _ => parseJSONElements (length s) rest
        end
    | _ => None
    end in
  match parsed with
  | Some l => Returns l
  | None => Throws (ErrorObject (utf16 "Unexpected token in JSON"))
  end.

Definition ascii_host : Host :=
  {| toLowerCase := ascii_toLowerCase;
     JSON_parse := ascii_JSON_parse;
     JSON_stringify := ascii_JSON_stringify |}.

(** A quiet environment: nothing selected, no AppleScript answer, a backend
    that answers [ls -la], a storage that works. *)
Definition quiet_env : Env :=
  {| anthropicApiKey := utf16 "sk-test";
     getSelectedText_outcome := Throws (ErrorObject (utf16 "Unable to get selected text"));
     execSync_outcome := λ _, Throws (ErrorObject (utf16 "Command failed"));
     Anthropic_outcome := λ _, Returns ();
     messages_create_outcome := λ _, Returns [TextBlock (utf16 "ls -la")];
     getItem_rejects := None;
     setItem_rejects := None;
     removeItem_rejects := None |}.

Definition empty_world : World :=
  {| searchText := [];
     isLoading := false;
     history := [];
     listKey := 0;
     localStorage := ∅;
     timeouts := [];
     calls := [] |}.

(** ** The vocabulary of the design

    The design document splits [buildPrompt] into a Relevance Filter and a
    Prompt Assembler.  The filter below is read off the three guards of
    [buildPrompt] (lines 134, 137 and 141): a field that fails its guard
    becomes absent. *)

Definition relevanceFilter (context : Context) : Context :=
  {| selectedText :=
       match selectedText context with
       | Some sel =>
           if truthy sel && bool_decide (length sel < 2000)%nat then Some sel else None
       | None => None
       end;
     currentApp :=
       match currentApp context with
       | Some app =>
           if truthy app && bool_decide (app ∈ RELEVANT_APPS) then Some app else None
       | None => None
       end;
     currentDirectory :=
       match currentDirectory context with
       | Some dir => if truthy dir then Some dir else None
       | None => None
       end |}.

(** A present field as one labeled entry, an absent one as none. *)
Definition labeled (label : jsstring) (field : option jsstring) : list jsstring :=
  match field with
  | Some value => [label ++ value]
  | None => []
  end.

(** The entries of the context block, in the order of the design: the
    application, the directory, the selection. *)
Definition contextLines (filtered : Context) : list jsstring :=
  labeled (utf16 "Current app: ") (currentApp filtered)
  ++ labeled (utf16 "Current directory: ") (currentDirectory filtered)
  ++ labeled (utf16 "Selected text:" ++ [LF]) (selectedText filtered).

(** A context with one field replaced. *)
Definition with_selectedText (v : option jsstring) (context : Context) : Context :=
  mkContext v (currentApp context) (currentDirectory context).
Definition with_currentApp (v : option jsstring) (context : Context) : Context :=
  mkContext (selectedText context) v (currentDirectory context).
Definition with_currentDirectory (v : option jsstring) (context : Context) : Context :=
  mkContext (selectedText context) (currentApp context) v.

(** [query] occurs in [item] when case is ignored: the lower-case form of
    [query] is a substring of the lower-case form of [item]. *)
Definition caseInsensitiveSubstring `{Host} (query item : jsstring) : Prop :=
  ∃ before after, toLowerCase item = before ++ toLowerCase query ++ after.

(** [record] of the design: drop every occurrence of the entry, put the
    entry in front, keep the first [MAX_HISTORY]. *)
Definition record_spec (entry : jsstring) (stored : list jsstring) : list jsstring :=
  take MAX_HISTORY (entry :: filter (λ h, h ≠ entry) stored).

(** The histories that [record] builds up from the empty one. *)
Inductive recorded : list jsstring → Prop :=
| recorded_empty : recorded []
| recorded_entry (entry : jsstring) (stored : list jsstring) :
    recorded stored → recorded (record_spec entry stored).

(** What [gatherContext] reports and the calls it makes.  Both depend on the
    answers of the collaborators only, not on the world it starts in. *)
Definition gatheredContext (env : Env) : outcome Context :=
  fst (gatherContext env empty_world).

Definition probeCalls (env : Env) : list Call :=
  calls (snd (gatherContext env empty_world)).

(** The message of the "Error" toast, lines 223-224. *)
Definition errorMessage (error : thrown) : jsstring :=
  match error with
  | ErrorObject message => message
  | OtherValue => utf16 "Unknown error"
  end.

(** Kinds of calls. *)
Definition isDelivery (c : Call) : bool :=
  match c with
  | Call_Clipboard_copy _ | Call_Clipboard_paste _ => true
  | _ => false
  end.

Definition isStorageCall (c : Call) : bool :=
  match c with
  | Call_LocalStorage_getItem _
  | Call_LocalStorage_setItem _ _
  | Call_LocalStorage_removeItem _ => true
  | _ => false
  end.

Definition isProbe (c : Call) : bool :=
  match c with
  | Call_getSelectedText | Call_execSync _ => true
  | _ => false
  end.

Definition isBackendCall (c : Call) : bool :=
  match c with
  | Call_Anthropic _ | Call_messages_create _ => true
  | _ => false
  end.

Definition isFailureToast (c : Call) : bool :=
  match c with
  | Call_showToast Failure _ _ => true
  | _ => false
  end.

(** ** The session

    What the user can do with the command, and the worlds that a session
    reaches from the initial one.  A handler runs to its end before the next
    action starts (one thread of control, one submission at a time), and the
    collaborators may answer each action in their own way. *)
Inductive Action :=
| Mount
| Submit (prompt : jsstring) (copyOnly : bool)
| UsePrompt (item : jsstring)
| Tick
| ClearHistory.

Definition perform `{Host} (env : Env) (a : Action) : M () :=
  match a with
  | Mount => Command_useEffect env
  | Submit prompt copyOnly => generateCommand env prompt copyOnly
  | UsePrompt item => usePrompt_onAction item
  | Tick => runTimeouts
  | ClearHistory => clearHistory_onAction env
  end.

Definition session `{Host} (steps : list (Env * Action)) : World :=
  foldl (λ w step, snd (perform (fst step) (snd step) w)) empty_world steps.

(** What the development asks of [JSON.parse] and [JSON.stringify] where it
    follows a history through the storage: a list that is written is read
    back, and its text is not the empty string. *)
Class HostLaws (host : Host) := {
  JSON_round_trip : ∀ l, JSON_parse (JSON_stringify l) = Returns l;
  JSON_stringify_truthy : ∀ l, JSON_stringify l ≠ [];
}.

(** The text under the history key, if there is one, is the text of a
    history that [record] has built. *)
Definition storageInvariant `{Host} (w : World) : Prop :=
  match localStorage w !! HISTORY_KEY with
  | Some text => ∃ stored, text = JSON_stringify stored ∧ recorded stored
  | None => True
  end.

Definition historyInvariant `{Host} (w : World) : Prop :=
  storageInvariant w ∧ recorded (history w).

(** [m] keeps [P]: whatever its outcome, a world with [P] is left with [P]. *)
Definition preserves {A} (P : World → Prop) (m : M A) : Prop :=
  ∀ w, P w → P (snd (m w)).

(** ** How a submission ends

    The four ways in which [generateCommand] leaves the world, and the
    answers of the collaborators that lead to each of them. *)

Definition validationToast : Call :=
  Call_showToast Failure (utf16 "Please enter a description") None.

Definition noCommandToast : Call :=
  Call_showToast Failure (utf16 "No command generated") None.

Definition errorToast (e : thrown) : Call :=
  Call_showToast Failure (utf16 "Error") (Some (errorMessage e)).

(** What reading [message.content[0].type] throws when the response holds no
    block, line 200. *)
Definition noContentError : thrown :=
  ErrorObject (utf16 "Cannot read properties of undefined (reading 'type')").

(** The command that a first block carries, lines 199-200. *)
Definition commandOf (block : ContentBlock) : jsstring :=
  match block with
  | TextBlock text => trim text
  | OtherBlock => []
  end.

(** The calls of a submission up to the request to the backend. *)
Definition requestCalls (env : Env) (prompt : jsstring) (context : Context) : list Call :=
  [Call_Anthropic (anthropicApiKey env)] ++ probeCalls env
  ++ [Call_messages_create (messageRequest (buildPrompt prompt context))].

(** The calls of a delivery, lines 213-221. *)
Definition deliveryCalls (copyOnly : bool) (command : jsstring) : list Call :=
  [ Call_closeMainWindow;
    if copyOnly then Call_Clipboard_copy command else Call_Clipboard_paste command;
    Call_showHUD (if copyOnly then utf16 "Command copied" else utf16 "Command pasted") ].

Inductive Ending :=
| Rejected
| Failed (attempted : list Call) (e : thrown)
| NoCommand (attempted : list Call)
| Delivered (attempted : list Call) (stored : list jsstring) (command : jsstring).

(** The world that an ending leaves. *)
Definition ended `{Host} (prompt : jsstring) (copyOnly : bool) (w : World)
    (ending : Ending) : World :=
  match ending with
  | Rejected => with_calls (calls w ++ [validationToast]) w
  | Failed attempted e =>
      with_isLoading false (with_calls (calls w ++ attempted ++ [errorToast e]) w)
  | NoCommand attempted =>
      with_isLoading false (with_calls (calls w ++ attempted ++ [noCommandToast]) w)
  | Delivered attempted stored command =>
      with_history (record_spec prompt stored)
        (with_localStorage
           (<[HISTORY_KEY := JSON_stringify (record_spec prompt stored)]> (localStorage w))
           (with_isLoading true
              (with_calls (calls w ++ attempted ++ deliveryCalls copyOnly command) w)))
  end.

(** Which ending the answers of the collaborators lead to. *)
Inductive ends `{Host} (env : Env) (prompt : jsstring) (w : World) : Ending → Prop :=
| ends_rejected :
    trim prompt = [] →
    ends env prompt w Rejected
| ends_client e :
    trim prompt ≠ [] →
    Anthropic_outcome env (anthropicApiKey env) = Throws e →
    ends env prompt w (Failed [Call_Anthropic (anthropicApiKey env)] e)
| ends_backend context e :
    trim prompt ≠ [] →
    Anthropic_outcome env (anthropicApiKey env) = Returns () →
    gatheredContext env = Returns context →
    messages_create_outcome env (messageRequest (buildPrompt prompt context)) = Throws e →
    ends env prompt w (Failed (requestCalls env prompt context) e)
| ends_content context :
    trim prompt ≠ [] →
    Anthropic_outcome env (anthropicApiKey env) = Returns () →
    gatheredContext env = Returns context →
    messages_create_outcome env (messageRequest (buildPrompt prompt context)) = Returns [] →
    ends env prompt w (Failed (requestCalls env prompt context) noContentError)
| ends_command context block rest :
    trim prompt ≠ [] →
    Anthropic_outcome env (anthropicApiKey env) = Returns () →
    gatheredContext env = Returns context →
    messages_create_outcome env (messageRequest (buildPrompt prompt context))
      = Returns (block :: rest) →
    commandOf block = [] →
    ends env prompt w (NoCommand (requestCalls env prompt context))
| ends_read context block rest e :
    trim prompt ≠ [] →
    Anthropic_outcome env (anthropicApiKey env) = Returns () →
    gatheredContext env = Returns context →
    messages_create_outcome env (messageRequest (buildPrompt prompt context))
      = Returns (block :: rest) →
    commandOf block ≠ [] →
    fst (getHistory env w) = Throws e →
    ends env prompt w
      (Failed (requestCalls env prompt context ++ [Call_LocalStorage_getItem HISTORY_KEY]) e)
| ends_write context block rest stored e :
    trim prompt ≠ [] →
    Anthropic_outcome env (anthropicApiKey env) = Returns () →
    gatheredContext env = Returns context →
    messages_create_outcome env (messageRequest (buildPrompt prompt context))
      = Returns (block :: rest) →
    commandOf block ≠ [] →
    fst (getHistory env w) = Returns stored →
    setItem_rejects env = Some e →
    ends env prompt w
      (Failed (requestCalls env prompt context
               ++ [Call_LocalStorage_getItem HISTORY_KEY;
                   Call_LocalStorage_setItem HISTORY_KEY
                     (JSON_stringify (record_spec prompt stored))]) e)
| ends_delivered context block rest stored :
    trim prompt ≠ [] →
    Anthropic_outcome env (anthropicApiKey env) = Returns () →
    gatheredContext env = Returns context →
    messages_create_outcome env (messageRequest (buildPrompt prompt context))
      = Returns (block :: rest) →
    commandOf block ≠ [] →
    fst (getHistory env w) = Returns stored →
    setItem_rejects env = None →
    ends env prompt w
      (Delivered (requestCalls env prompt context
                  ++ [Call_LocalStorage_getItem HISTORY_KEY;
                      Call_LocalStorage_setItem HISTORY_KEY
                        (JSON_stringify (record_spec prompt stored))])
         stored (commandOf block)).

(** Toasts and HUDs: what the user is told. *)
Definition isNotification (c : Call) : bool :=
  match c with
  | Call_showToast _ _ _ | Call_showHUD _ => true
  | _ => false
  end.

(** ** The probes *)

(** What [runAppleScript] makes of the answer to a script. *)
Definition scriptResult (env : Env) (s : script) : option jsstring :=
  match execSync_outcome env s with
  | Returns out => Some (trim out)
  | Throws _ => None
  end.

(** The apps that [gatherContext] asks for a directory, lines 93 and 103. *)
Definition terminals : list jsstring :=
  [utf16 "Terminal"; utf16 "iTerm2"; utf16 "iTerm"].

(** ** The entries of the history *)

(** Every entry shown and every entry stored satisfies [P]. *)
Definition entriesInvariant `{Host} (P : jsstring → Prop) (w : World) : Prop :=
  Forall P (history w)
  ∧ match localStorage w !! HISTORY_KEY with
    | Some text => ∃ stored, text = JSON_stringify stored ∧ Forall P stored
    | None => True
    end.

(** A prompt that a session has submitted and that passed the guard of
    line 175. *)
Definition submittedIn (steps : list (Env * Action)) (prompt : jsstring) : Prop :=
  trim prompt ≠ [] ∧ ∃ env copyOnly, (env, Submit prompt copyOnly) ∈ steps.

(** ** The view, lines 238-304

    The elements that [Command] returns, with the attributes that decide
    what the user can do: titles, subtitles, keys and the handlers of the
    actions.  A handler is the [Action] that it performs.  Icons, the
    placeholder of the search bar, shortcuts and styles are left out. *)
Record ActionElement := mkAction {
  action_title : jsstring;
  onAction : Action;
}.

Record ListItem := mkListItem {
  item_key : option nat;
  item_title : jsstring;
  item_subtitle : option jsstring;
  item_actions : list ActionElement;
}.

Record ListView := mkListView {
  view_key : N;
  view_isLoading : bool;
  view_searchText : jsstring;
  view_onSearchTextChange : jsstring → M ();
  view_generate : option ListItem;
  view_history : option (list ListItem);
}.

(** The "Generate Command" item, lines 248-262. *)
Definition generateItem (searchText : jsstring) : ListItem :=
  mkListItem None (utf16 "Generate Command") (Some searchText)
    [ mkAction (utf16 "Generate & Paste") (Submit searchText false);
      mkAction (utf16 "Generate & Copy") (Submit searchText true) ].

(** An item of the "History" section, lines 267-299. *)
Definition historyItem (index : nat) (item : jsstring) : ListItem :=
  mkListItem (Some index) item None
    [ mkAction (utf16 "Use Prompt") (UsePrompt item);
      mkAction (utf16 "Clear History") ClearHistory ].

(** The list: the "Generate Command" item when the search text is not blank
    (line 247), then the "History" section when the filtered history is not
    empty (line 264). *)
Definition Command_render `{Host} (w : World) : ListView :=
  let filtered := filteredHistory (searchText w) (history w) in
  mkListView (listKey w) (isLoading w) (searchText w) setSearchText
    (if truthy (trim (searchText w)) then Some (generateItem (searchText w)) else None)
    (if (0 <? length filtered)%nat then Some (imap historyItem filtered) else None).

(** The actions that a view offers to the user. *)
Definition offered (v : ListView) : list Action :=
  onAction <$> (from_option item_actions [] (view_generate v)
                ++ mjoin (item_actions <$> default [] (view_history v))).

(** * Properties *)

(** ** The prompt *)

Lemma truthy_true (s : jsstring) : truthy s = true ↔ s ≠ [].
Proof. destruct s; simpl; split; intros; congruence. Qed.

Lemma empty_not_relevant : [] ∉ RELEVANT_APPS.
Proof. vm_compute. intros Hin. discriminate Hin. Qed.

(** [buildPrompt] is the assembler after the filter. *)
Lemma buildPrompt_assembles (userPrompt : jsstring) (context : Context) :
  buildPrompt userPrompt context =
    match contextLines (relevanceFilter context) with
    | [] => userPrompt
    | (_ :: _) as lines =>
        utf16 "Context:" ++ [LF] ++ join [LF] lines ++ [LF; LF]
          ++ utf16 "Request: " ++ userPrompt
    end.
Proof.
  destruct context as [sel app dir].
  unfold buildPrompt, contextLines, relevanceFilter, labeled; cbn [selectedText currentApp currentDirectory].
  destruct app as [app|]; [destruct (truthy app && bool_decide (app ∈ RELEVANT_APPS))|];
    (destruct dir as [dir|]; [destruct (truthy dir)|]);
    (destruct sel as [sel|];
       [destruct (truthy sel && bool_decide (length sel < 2000)%nat)|]);
    reflexivity.
Qed.

(** The filter keeps what it has kept. *)
Lemma relevanceFilter_idempotent (context : Context) :
  relevanceFilter (relevanceFilter context) = relevanceFilter context.
Proof.
  destruct context as [sel app dir].
  unfold relevanceFilter; cbn [selectedText currentApp currentDirectory].
  f_equal.
  - destruct sel as [sel|]; [|done].
    destruct (truthy sel && bool_decide (length sel < 2000)%nat) eqn:E; [|done].
    by rewrite E.
  - destruct app as [app|]; [|done].
    destruct (truthy app && bool_decide (app ∈ RELEVANT_APPS)) eqn:E; [|done].
    by rewrite E.
  - destruct dir as [dir|]; [|done].
    destruct (truthy dir) eqn:E; [|done].
    by rewrite E.
Qed.

Lemma kept_app (context : Context) (app : jsstring) :
  currentApp (relevanceFilter context) = Some app
  ↔ currentApp context = Some app ∧ app ∈ RELEVANT_APPS.
Proof.
  unfold relevanceFilter; cbn [currentApp].
  destruct (currentApp context) as [a|]; [|split; [done|by intros [? _]]].
  destruct (truthy a) eqn:Ht; cbn [andb].
  - case_bool_decide as Hin.
    + split; [by intros [= ->]|by intros [? _]].
    + split; [done|]. by intros [[= ->] ?].
  - destruct a; [|discriminate Ht].
    split; [done|].
    intros [[= <-] Hin]. by apply empty_not_relevant in Hin.
Qed.

Lemma kept_directory (context : Context) (dir : jsstring) :
  currentDirectory (relevanceFilter context) = Some dir
  ↔ currentDirectory context = Some dir ∧ dir ≠ [].
Proof.
  unfold relevanceFilter; cbn [currentDirectory].
  destruct (currentDirectory context) as [d|]; [|split; [done|by intros [? _]]].
  destruct d; cbn [truthy].
  - split; [done|]. by intros [[= <-] ?].
  - split; [by intros [= <-]|by intros [? _]].
Qed.

Lemma kept_selection (context : Context) (sel : jsstring) :
  selectedText (relevanceFilter context) = Some sel
  ↔ selectedText context = Some sel ∧ sel ≠ [] ∧ (length sel < 2000)%nat.
Proof.
  unfold relevanceFilter; cbn [selectedText].
  destruct (selectedText context) as [s|]; [|split; [done|by intros [? _]]].
  destruct s; cbn [truthy andb].
  - split; [done|]. by intros [[= <-] [? _]].
  - case_bool_decide as Hlen.
    + split; [by intros [= <-]|by intros [? _]].
    + split; [done|]. by intros [[= <-] [_ ?]].
Qed.

(** C1, as the code has it.  The user message lists the kept application, the
    kept directory and the kept selection, in this order, each under its
    label, below a "Context:" header and above the request under its
    "Request: " label; when no field is kept the message is the request text
    alone, with neither the header nor the label.  So the request "find
    large files" without context gives "find large files", and the request
    "grep for TODOs" in Terminal at ~/project gives the context block with the
    application and the directory before the request line. *)
Theorem buildPrompt_layout (userPrompt : jsstring) (context : Context) :
  buildPrompt userPrompt context =
    match labeled (utf16 "Current app: ") (currentApp (relevanceFilter context))
          ++ labeled (utf16 "Current directory: ") (currentDirectory (relevanceFilter context))
          ++ labeled (utf16 "Selected text:" ++ [LF]) (selectedText (relevanceFilter context))
    with
    | [] => userPrompt
    | (_ :: _) as lines =>
        utf16 "Context:" ++ [LF] ++ join [LF] lines ++ [LF; LF]
          ++ utf16 "Request: " ++ userPrompt
    end
  ∧ buildPrompt (utf16 "find large files") (mkContext None None None)
    = utf16 "find large files"
  ∧ buildPrompt (utf16 "grep for TODOs")
      (mkContext None (Some (utf16 "Terminal")) (Some (utf16 "~/project")))
    = utf16 "Context:" ++ [LF]
        ++ utf16 "Current app: Terminal" ++ [LF]
        ++ utf16 "Current directory: ~/project" ++ [LF; LF]
        ++ utf16 "Request: grep for TODOs".
Proof.
  split; [apply buildPrompt_assembles|].
  split; vm_compute; reflexivity.
Qed.

(** C1 as the specification states it fails: without context the message is
    not "Request: find large files" but the bare request. *)
Lemma buildPrompt_no_context_has_no_label :
  buildPrompt (utf16 "find large files") (mkContext None None None)
    ≠ utf16 "Request: find large files".
Proof. vm_compute. discriminate. Qed.

(** A selection that fails its guard leaves the prompt of the context without
    selection. *)
Lemma buildPrompt_selection_dropped (userPrompt sel : jsstring) (context : Context) :
  sel = [] ∨ (2000 ≤ length sel)%nat →
  buildPrompt userPrompt (with_selectedText (Some sel) context)
  = buildPrompt userPrompt (with_selectedText None context).
Proof.
  intros Hdrop. rewrite !buildPrompt_assembles.
  unfold relevanceFilter, with_selectedText; cbn [selectedText currentApp currentDirectory].
  destruct Hdrop as [-> | Hlong]; [done|].
  rewrite (bool_decide_eq_false_2 (length sel < 2000)%nat) by lia.
  by rewrite andb_false_r.
Qed.

(** A selection that passes its guard is the last entry of the context
    block, under its label. *)
Lemma buildPrompt_selection_kept (userPrompt sel : jsstring) (context : Context) :
  sel ≠ [] → (length sel < 2000)%nat →
  buildPrompt userPrompt (with_selectedText (Some sel) context)
  = utf16 "Context:" ++ [LF]
      ++ join [LF] (contextLines (relevanceFilter (with_selectedText None context))
                    ++ [utf16 "Selected text:" ++ [LF] ++ sel])
      ++ [LF; LF] ++ utf16 "Request: " ++ userPrompt.
Proof.
  intros Hne Hlen. rewrite buildPrompt_assembles.
  unfold contextLines, relevanceFilter, with_selectedText;
    cbn [selectedText currentApp currentDirectory].
  apply truthy_true in Hne. rewrite Hne, bool_decide_eq_true_2 by done.
  cbn [andb labeled]. rewrite app_nil_r, <- !app_assoc.
  destruct (labeled _ _ ++ labeled _ _ ++ _) eqn:E; [|by rewrite <- E].
  by apply app_eq_nil in E as [_ [_ ?]%app_eq_nil].
Qed.

(** An empty working directory leaves the prompt of the context without
    directory. *)
Lemma buildPrompt_empty_directory_dropped (userPrompt : jsstring) (context : Context) :
  buildPrompt userPrompt (with_currentDirectory (Some []) context)
  = buildPrompt userPrompt (with_currentDirectory None context).
Proof. by rewrite !buildPrompt_assembles. Qed.

(** C8, as the code has it.  The context block of the prompt is made of the
    fields that the filter keeps, and each field has its own rule: the
    application is kept if and only if it is in the allow-list; the working
    directory is kept if and only if it is present and not the empty string;
    a kept selection is shorter than 2000 code units.  Replacing one field by
    anything leaves the other two kept or dropped as they were, and a
    selection of 2000 code units or more leaves the prompt as it is without
    selection. *)
Theorem relevance_rules_are_independent (context : Context) :
  (∀ userPrompt,
     buildPrompt userPrompt context =
       match contextLines (relevanceFilter context) with
       | [] => userPrompt
       | (_ :: _) as lines =>
           utf16 "Context:" ++ [LF] ++ join [LF] lines ++ [LF; LF]
             ++ utf16 "Request: " ++ userPrompt
       end)
  ∧ (∀ app, currentApp (relevanceFilter context) = Some app
            ↔ currentApp context = Some app ∧ app ∈ RELEVANT_APPS)
  ∧ (∀ dir, currentDirectory (relevanceFilter context) = Some dir
            ↔ currentDirectory context = Some dir ∧ dir ≠ [])
  ∧ (∀ sel, selectedText (relevanceFilter context) = Some sel
            → selectedText context = Some sel ∧ (length sel < 2000)%nat)
  ∧ (∀ v, currentApp (relevanceFilter (with_selectedText v context))
            = currentApp (relevanceFilter context)
          ∧ currentDirectory (relevanceFilter (with_selectedText v context))
            = currentDirectory (relevanceFilter context))
  ∧ (∀ v, selectedText (relevanceFilter (with_currentApp v context))
            = selectedText (relevanceFilter context)
          ∧ currentDirectory (relevanceFilter (with_currentApp v context))
            = currentDirectory (relevanceFilter context))
  ∧ (∀ v, selectedText (relevanceFilter (with_currentDirectory v context))
            = selectedText (relevanceFilter context)
          ∧ currentApp (relevanceFilter (with_currentDirectory v context))
            = currentApp (relevanceFilter context))
  ∧ (∀ userPrompt sel, (2000 ≤ length sel)%nat →
       buildPrompt userPrompt (with_selectedText (Some sel) context)
       = buildPrompt userPrompt (with_selectedText None context)).
Proof.
  split; [intros userPrompt; apply buildPrompt_assembles|].
  split; [intros app; apply kept_app|].
  split; [intros dir; apply kept_directory|].
  split; [intros sel Hkept; apply kept_selection in Hkept; tauto|].
  do 3 (split; [done|]).
  intros userPrompt sel Hlong. apply buildPrompt_selection_dropped. by right.
Qed.

Lemma relevance_rules_are_independent_witness :
  (2000 ≤ length (replicate 2000 120%N))%nat
  ∧ buildPrompt (utf16 "ls")
      (mkContext (Some (replicate 2000 120)) (Some (utf16 "Code")) None)
    = buildPrompt (utf16 "ls") (mkContext None (Some (utf16 "Code")) None).
Proof.
  assert (Hlong : (2000 ≤ length (replicate 2000 120%N))%nat)
    by (rewrite length_replicate; lia).
  split; [exact Hlong|].
  exact (proj2 (proj2 (proj2 (proj2 (proj2 (proj2 (proj2
           (relevance_rules_are_independent
              (mkContext None (Some (utf16 "Code")) None))))))))
           (utf16 "ls") (replicate 2000 120) Hlong).
Defined.

(** C8 as the specification states it fails: iTerm2 is in front and the path
    variable of its session is empty, so the working directory is present, as
    the empty string, and it is not kept. *)
Lemma present_empty_directory_not_kept :
  let env := mkEnv (utf16 "sk-test") (Throws OtherValue)
               (λ s, match s with
                     | appScript => Returns (utf16 "iTerm2" ++ [LF])
                     | _ => Returns [LF]
                     end)
               (λ _, Returns ()) (λ _, Returns [TextBlock (utf16 "pwd")])
               None None None in
  let context := mkContext None (Some (utf16 "iTerm2")) (Some []) in
  gatheredContext env = Returns context
  ∧ is_Some (currentDirectory context)
  ∧ currentDirectory (relevanceFilter context) = None
  ∧ buildPrompt (utf16 "pwd") context
    = utf16 "Context:" ++ [LF] ++ utf16 "Current app: iTerm2" ++ [LF; LF]
        ++ utf16 "Request: pwd".
Proof.
  cbv zeta. split; [vm_compute; reflexivity|].
  split; [by eexists|]. split; vm_compute; reflexivity.
Qed.

(** C10.  The selection reaches the prompt if and only if it is not the empty
    string and is shorter than 2000 code units: then it is the last entry
    of the context block, and otherwise the prompt is the one of the context
    without selection.  An empty working directory is dropped in the same
    way although it is present. *)
Theorem empty_strings_are_dropped (userPrompt : jsstring) (context : Context) :
  (∀ sel, selectedText (relevanceFilter context) = Some sel
          ↔ selectedText context = Some sel ∧ sel ≠ [] ∧ (length sel < 2000)%nat)
  ∧ (∀ sel, sel ≠ [] ∧ (length sel < 2000)%nat →
       buildPrompt userPrompt (with_selectedText (Some sel) context)
       = utf16 "Context:" ++ [LF]
           ++ join [LF] (contextLines (relevanceFilter (with_selectedText None context))
                         ++ [utf16 "Selected text:" ++ [LF] ++ sel])
           ++ [LF; LF] ++ utf16 "Request: " ++ userPrompt)
  ∧ (∀ sel, ¬ (sel ≠ [] ∧ (length sel < 2000)%nat) →
       buildPrompt userPrompt (with_selectedText (Some sel) context)
       = buildPrompt userPrompt (with_selectedText None context))
  ∧ selectedText (relevanceFilter (with_selectedText (Some []) context)) = None
  ∧ currentDirectory (relevanceFilter (with_currentDirectory (Some []) context)) = None
  ∧ buildPrompt userPrompt (with_currentDirectory (Some []) context)
    = buildPrompt userPrompt (with_currentDirectory None context).
Proof.
  split; [intros sel; apply kept_selection|].
  split; [intros sel [Hne Hlen]; by apply buildPrompt_selection_kept|].
  split.
  { intros sel Hnot. apply buildPrompt_selection_dropped.
    destruct sel; [by left|right].
    destruct (decide (length (n :: sel) < 2000)%nat); [|lia].
    exfalso. apply Hnot. done. }
  split; [done|]. split; [done|].
  apply buildPrompt_empty_directory_dropped.
Qed.

Lemma empty_strings_are_dropped_witness :
  buildPrompt (utf16 "ls") (mkContext (Some (utf16 "x")) None None)
  = utf16 "Context:" ++ [LF] ++ utf16 "Selected text:" ++ [LF] ++ utf16 "x"
      ++ [LF; LF] ++ utf16 "Request: ls".
Proof.
  refine (proj1 (proj2 (empty_strings_are_dropped (utf16 "ls")
                          (mkContext None None None))) (utf16 "x") _).
  split; [discriminate|cbn; lia].
Defined.

(** ** The history *)

Lemma record_spec_cons (entry : jsstring) (stored : list jsstring) :
  record_spec entry stored = entry :: take 19 (filter (λ h, h ≠ entry) stored).
Proof. reflexivity. Qed.

Lemma record_spec_length (entry : jsstring) (stored : list jsstring) :
  (length (record_spec entry stored) ≤ 20)%nat.
Proof. unfold record_spec. rewrite length_take. unfold MAX_HISTORY. lia. Qed.

Lemma record_spec_rest (entry : jsstring) (stored : list jsstring) :
  take 19 (filter (λ h, h ≠ entry) stored) `sublist_of` stored.
Proof.
  etrans; [apply sublist_take|]. apply sublist_filter.
Qed.

Lemma record_spec_once (entry : jsstring) (stored : list jsstring) :
  entry ∉ take 19 (filter (λ h, h ≠ entry) stored).
Proof.
  intros Hin.
  eapply elem_of_sublist in Hin; [|apply sublist_take].
  apply list_elem_of_filter in Hin as [Hne _]. by apply Hne.
Qed.

Lemma record_spec_NoDup (entry : jsstring) (stored : list jsstring) :
  NoDup stored → NoDup (record_spec entry stored).
Proof.
  intros Hnd. rewrite record_spec_cons. apply NoDup_cons. split.
  - apply record_spec_once.
  - eapply sublist_NoDup; [exact Hnd|apply record_spec_rest].
Qed.

Lemma filter_absent (entry : jsstring) (stored : list jsstring) :
  entry ∉ stored → filter (λ h, h ≠ entry) stored = stored.
Proof.
  induction stored as [|h stored IH]; [done|].
  intros Hnotin. apply not_elem_of_cons in Hnotin as [Hne Hrest].
  rewrite filter_cons_True by done. by rewrite IH.
Qed.

Lemma record_spec_full (entry oldest : jsstring) (kept : list jsstring) :
  length (kept ++ [oldest]) = 20%nat → entry ∉ kept ++ [oldest] →
  record_spec entry (kept ++ [oldest]) = entry :: kept.
Proof.
  intros Hlen Hnew. rewrite record_spec_cons, filter_absent by done.
  rewrite length_app in Hlen. cbn in Hlen.
  by rewrite take_app_length' by lia.
Qed.

Lemma record_spec_promotes (a b c : jsstring) :
  a ≠ b → b ≠ c → record_spec b [a; b; c] = [b; a; c].
Proof.
  intros Hab Hbc. rewrite record_spec_cons.
  rewrite filter_cons_True by done.
  rewrite filter_cons_False by (intros Hne; by apply Hne).
  rewrite filter_cons_True by done.
  reflexivity.
Qed.

(** Every history built by [record] alone is free of duplicates and within
    the capacity. *)
Lemma recorded_invariant (stored : list jsstring) :
  recorded stored → NoDup stored ∧ (length stored ≤ 20)%nat.
Proof.
  induction 1 as [|entry stored _ [IHnodup _]].
  - split; [constructor|cbn; lia].
  - split; [by apply record_spec_NoDup|apply record_spec_length].
Qed.

Section History.
Context `{Host} (env : Env).

Lemma getHistory_unfold (w : World) :
  getHistory env w =
    (match getItem_rejects env with
     | Some e => Throws e
     | None =>
         match localStorage w !! HISTORY_KEY with
         | Some (c :: text) => JSON_parse (c :: text)
         | Some [] | None => Returns []
         end
     end,
     with_calls (calls w ++ [Call_LocalStorage_getItem HISTORY_KEY]) w).
Proof.
  unfold getHistory, bind, LocalStorage_getItem, call, ret, throw.
  destruct (getItem_rejects env) as [e|]; [done|].
  destruct (localStorage w !! HISTORY_KEY) as [[|c text]|]; [done| |done].
  cbn [truthy]. by destruct (JSON_parse (c :: text)).
Qed.

Lemma addToHistory_unfold (prompt : jsstring) (stored : list jsstring) (w : World) :
  fst (getHistory env w) = Returns stored →
  addToHistory env prompt w =
    match setItem_rejects env with
    | Some e =>
        (Throws e,
         with_calls (calls w ++ [Call_LocalStorage_getItem HISTORY_KEY;
                                 Call_LocalStorage_setItem HISTORY_KEY
                                   (JSON_stringify (record_spec prompt stored))]) w)
    | None =>
        (Returns (record_spec prompt stored),
         with_localStorage
           (<[HISTORY_KEY := JSON_stringify (record_spec prompt stored)]> (localStorage w))
           (with_calls (calls w ++ [Call_LocalStorage_getItem HISTORY_KEY;
                                    Call_LocalStorage_setItem HISTORY_KEY
                                      (JSON_stringify (record_spec prompt stored))]) w))
    end.
Proof.
  intros Hread. unfold addToHistory, bind at 1.
  rewrite getHistory_unfold in Hread |- *. cbn [fst] in Hread. rewrite Hread.
  fold (record_spec prompt stored).
  unfold LocalStorage_setItem, bind, call, modify, ret.
  destruct w as [st ld hi lk ls ts cs]; cbn.
  destruct (setItem_rejects env) as [e|]; cbn; by rewrite <- app_assoc.
Qed.

End History.

(** C9, as the code has it.  [getHistory] makes one read of the storage and
    changes nothing else.  It answers the empty list when nothing is stored
    under the key or the stored text is the empty string, and what
    [JSON.parse] makes of any other stored text; a read that the storage
    rejects and a text that [JSON.parse] rejects are not turned into the
    empty list: [getHistory] throws what they throw. *)
Theorem getHistory_read_outcomes (host : Host) (env : Env) (w : World) :
  fst (getHistory env w) =
    match getItem_rejects env with
    | Some e => Throws e
    | None =>
        match localStorage w !! HISTORY_KEY with
        | None => Returns []
        | Some [] => Returns []
        | Some (c :: text) => JSON_parse (c :: text)
        end
    end
  ∧ snd (getHistory env w)
    = with_calls (calls w ++ [Call_LocalStorage_getItem HISTORY_KEY]) w.
Proof.
  rewrite getHistory_unfold. split; [|done]. cbn [fst].
  destruct (getItem_rejects env); [done|].
  by destruct (localStorage w !! HISTORY_KEY) as [[|c text]|].
Qed.

(** C9 as the specification states it fails: with unreadable data under the
    key, and with a storage that rejects the read, [getHistory] does not
    answer the empty list but throws. *)
Lemma getHistory_propagates_read_failures :
  (∃ message,
     fst (@getHistory ascii_host quiet_env
            (with_localStorage {[ HISTORY_KEY := utf16 "{" ]} empty_world))
     = Throws (ErrorObject message))
  ∧ fst (@getHistory ascii_host
           (mkEnv (utf16 "sk-test") (Returns []) (λ _, Returns []) (λ _, Returns ())
                  (λ _, Returns []) (Some (ErrorObject (utf16 "storage unavailable")))
                  None None)
           empty_world)
    = Throws (ErrorObject (utf16 "storage unavailable")).
Proof. split; [eexists|]; vm_compute; reflexivity. Qed.

(** ** The filtered list *)

Lemma startsWith_spec (hay needle : jsstring) :
  startsWith hay needle = true ↔ ∃ after, hay = needle ++ after.
Proof.
  revert hay. induction needle as [|n needle IH]; intros hay.
  - destruct hay; cbn; split; eauto.
  - destruct hay as [|h hay]; cbn.
    + split; [discriminate|]. by intros [after ?].
    + rewrite andb_true_iff, bool_decide_eq_true, IH. split.
      * intros [-> [after ->]]. eauto.
      * intros [after [= -> ->]]. eauto.
Qed.

Lemma includes_spec (hay needle : jsstring) :
  includes hay needle = true ↔ ∃ before after, hay = before ++ needle ++ after.
Proof.
  induction hay as [|h hay IH]; cbn [includes];
    rewrite orb_true_iff, startsWith_spec.
  - split.
    + intros [[after Ha]|?]; [|done]. by exists [], after.
    + intros (before & after & Hb). left.
      destruct before; [|done]. eauto.
  - rewrite IH. split.
    + intros [[after ->]|(before & after & ->)].
      * by exists [], after.
      * by exists (h :: before), after.
    + intros (before & after & Hb).
      destruct before as [|x before]; [left; eauto|].
      right. injection Hb as -> ->. eauto.
Qed.

Lemma trim_empty : trim [] = [].
Proof. reflexivity. Qed.

(** C7, as the code has it.  When the query is empty after trimming (the
    empty query, or one of white space only) the history is shown whole.
    Otherwise the code keeps exactly the entries in which the query, as
    typed, occurs when case is ignored, in their order.  With the query "a",
    Alpha, beta and Gamma are all kept, in this order. *)
Theorem filteredHistory_matches (host : Host) (query : jsstring)
    (history : list jsstring) :
  (trim query = [] → filteredHistory query history = history)
  ∧ (trim query ≠ [] →
       ∀ dec : ∀ item, Decision (caseInsensitiveSubstring query item),
         filteredHistory query history
         = filter (caseInsensitiveSubstring query) history)
  ∧ filteredHistory [] history = history
  ∧ filteredHistory query history `sublist_of` history
  ∧ @filteredHistory ascii_host (utf16 "a")
      [utf16 "Alpha"; utf16 "beta"; utf16 "Gamma"]
    = [utf16 "Alpha"; utf16 "beta"; utf16 "Gamma"].
Proof.
  split; [intros Hblank; unfold filteredHistory; by rewrite Hblank|].
  split.
  { intros Hquery dec. unfold filteredHistory.
    apply truthy_true in Hquery. rewrite Hquery.
    apply list_filter_iff. intros item. apply includes_spec. }
  split; [done|].
  split; [|vm_compute; reflexivity].
  unfold filteredHistory. destruct (truthy (trim query)); [apply sublist_filter|done].
Qed.

Lemma filteredHistory_matches_witness :
  @filteredHistory ascii_host [] [utf16 "Alpha"; utf16 "beta"] = [utf16 "Alpha"; utf16 "beta"]
  ∧ ∀ dec : ∀ item, Decision (@caseInsensitiveSubstring ascii_host (utf16 "et") item),
      @filteredHistory ascii_host (utf16 "et") [utf16 "Alpha"; utf16 "beta"]
      = filter (@caseInsensitiveSubstring ascii_host (utf16 "et"))
          [utf16 "Alpha"; utf16 "beta"].
Proof.
  split.
  - apply (proj1 (filteredHistory_matches ascii_host [] [utf16 "Alpha"; utf16 "beta"])).
    reflexivity.
  - apply (proj1 (proj2 (filteredHistory_matches ascii_host (utf16 "et")
                           [utf16 "Alpha"; utf16 "beta"]))).
    vm_compute. discriminate.
Defined.

(** C7 as the specification states it fails for a query of white space: the
    query " " occurs nowhere in "ab", and "ab" is shown all the same. *)
Lemma filteredHistory_blank_query_shows_all :
  @filteredHistory ascii_host (utf16 " ") [utf16 "ab"] = [utf16 "ab"]
  ∧ ¬ @caseInsensitiveSubstring ascii_host (utf16 " ") (utf16 "ab").
Proof.
  split; [vm_compute; reflexivity|].
  intros Hsub. apply includes_spec in Hsub. vm_compute in Hsub. discriminate Hsub.
Qed.

(** ** The submission *)

Lemma bind_Returns {A B} (m : M A) (k : A → M B) (w w' : World) (a : A) :
  m w = (Returns a, w') → bind m k w = k a w'.
Proof. unfold bind. by intros ->. Qed.

Lemma bind_Throws {A B} (m : M A) (k : A → M B) (w w' : World) (e : thrown) :
  m w = (Throws e, w') → bind m k w = (Throws e, w').
Proof. unfold bind. by intros ->. Qed.

Lemma try_catch_Returns {A} (body : M A) (handler : thrown → M A)
    (w w' : World) (a : A) :
  body w = (Returns a, w') → try_catch body handler w = (Returns a, w').
Proof. unfold try_catch. by intros ->. Qed.

Lemma try_catch_Throws {A} (body : M A) (handler : thrown → M A)
    (w w' : World) (e : thrown) :
  body w = (Throws e, w') → try_catch body handler w = handler e w'.
Proof. unfold try_catch. by intros ->. Qed.

Lemma runAppleScript_unfold (env : Env) (s : script) (w : World) :
  runAppleScript env s w =
    (Returns match execSync_outcome env s with
             | Returns out => Some (trim out)
             | Throws _ => None
             end,
     with_calls (calls w ++ [Call_execSync s]) w).
Proof.
  unfold runAppleScript, try_catch, bind, execSync, call, ret.
  by destruct (execSync_outcome env s).
Qed.

(** Runs [gatherContext] symbolically: one case for each answer of the
    collaborators that it looks at. *)
Ltac run_gatherContext env :=
  unfold gatherContext, bind, try_catch, getSelectedText, call, ret; cbn beta;
  destruct (getSelectedText_outcome env); cbn [fst snd];
  repeat first
    [ rewrite runAppleScript_unfold
    | progress cbn beta iota
    | match goal with |- context [if ?b then _ else _] => destruct b end ];
  cbn.

Lemma gatherContext_frame (env : Env) (w : World) :
  gatherContext env w =
    (gatheredContext env, with_calls (calls w ++ probeCalls env) w).
Proof.
  unfold gatheredContext, probeCalls. run_gatherContext env; by rewrite <- ?app_assoc.
Qed.

(** Context acquisition never fails: a probe that throws leaves its field
    absent. *)
Lemma gatherContext_returns (env : Env) :
  ∃ context, gatheredContext env = Returns context.
Proof. unfold gatheredContext. run_gatherContext env; by eexists. Qed.

Lemma gatherContext_probes (env : Env) :
  Forall (λ c, isProbe c = true) (probeCalls env).
Proof. unfold probeCalls. run_gatherContext env; by repeat constructor. Qed.

(** The working directory is asked for only when the application is one of
    the three terminals. *)
Lemma gatherContext_directory (env : Env) (context : Context) :
  gatheredContext env = Returns context →
  is_Some (currentDirectory context) →
  currentApp context = Some (utf16 "Terminal")
  ∨ currentApp context = Some (utf16 "iTerm2")
  ∨ currentApp context = Some (utf16 "iTerm").
Proof.
  unfold gatheredContext, gatherContext, bind, try_catch, getSelectedText, call, ret.
  cbn beta.
  destruct (getSelectedText_outcome env); cbn [fst snd];
    rewrite runAppleScript_unfold; cbn beta iota;
    repeat case_bool_decide; cbn [orb];
    repeat first
      [ rewrite runAppleScript_unfold
      | progress cbn beta iota
      | match goal with |- context [if ?b then _ else _] => destruct b end ];
    cbn; intros [= <-]; cbn; intros Hdir; auto; by destruct Hdir.
Qed.

Lemma getHistory_same_storage `{Host} (env : Env) (w w' : World) :
  localStorage w = localStorage w' →
  fst (getHistory env w) = fst (getHistory env w').
Proof. intros Hls. rewrite !getHistory_unfold. cbn [fst]. by rewrite Hls. Qed.

(** C5.  A submission whose text is empty after trimming shows the failure
    toast "Please enter a description" and does nothing else: the world is
    the one before with this one call added, so [isLoading], the history and
    the storage are untouched, and neither a probe of the context nor a call
    to the backend is made. *)
Theorem blank_request_is_rejected (host : Host) (env : Env)
    (prompt : jsstring) (copyOnly : bool) (w : World) :
  trim prompt = [] →
  let toast := Call_showToast Failure (utf16 "Please enter a description") None in
  generateCommand env prompt copyOnly w
    = (Returns (), with_calls (calls w ++ [toast]) w)
  ∧ isFailureToast toast = true
  ∧ isProbe toast = false ∧ isBackendCall toast = false
  ∧ isStorageCall toast = false ∧ isDelivery toast = false
  ∧ isLoading (snd (generateCommand env prompt copyOnly w)) = isLoading w
  ∧ history (snd (generateCommand env prompt copyOnly w)) = history w
  ∧ localStorage (snd (generateCommand env prompt copyOnly w)) = localStorage w
  ∧ searchText (snd (generateCommand env prompt copyOnly w)) = searchText w
  ∧ listKey (snd (generateCommand env prompt copyOnly w)) = listKey w.
Proof.
  intros Hblank toast. unfold generateCommand. rewrite Hblank. cbn [truthy negb].
  unfold showToast, call. cbn [fst snd]. by repeat split.
Qed.

Lemma blank_request_is_rejected_witness :
  @generateCommand ascii_host quiet_env (utf16 "   ") false empty_world
  = (Returns (),
     with_calls [Call_showToast Failure (utf16 "Please enter a description") None]
       empty_world).
Proof.
  apply (blank_request_is_rejected ascii_host quiet_env (utf16 "   ") false empty_world).
  vm_compute. reflexivity.
Defined.

(** C4.  When the request is not blank, the client is built, and the backend
    answers a first text block that is empty after trimming, the submission
    ends with the failure toast "No command generated": [isLoading] is
    cleared, the history and the storage are as before ([addToHistory] is not
    reached, no call goes to the storage), and nothing is pasted or
    copied. *)
Theorem empty_response_delivers_nothing (host : Host) (env : Env)
    (prompt : jsstring) (copyOnly : bool) (w : World)
    (context : Context) (text : jsstring) (rest : list ContentBlock) :
  trim prompt ≠ [] →
  Anthropic_outcome env (anthropicApiKey env) = Returns () →
  gatheredContext env = Returns context →
  messages_create_outcome env (messageRequest (buildPrompt prompt context))
    = Returns (TextBlock text :: rest) →
  trim text = [] →
  let w' := snd (generateCommand env prompt copyOnly w) in
  let added :=
    [Call_Anthropic (anthropicApiKey env)] ++ probeCalls env
    ++ [Call_messages_create (messageRequest (buildPrompt prompt context));
        Call_showToast Failure (utf16 "No command generated") None] in
  fst (generateCommand env prompt copyOnly w) = Returns ()
  ∧ calls w' = calls w ++ added
  ∧ Forall (λ c, isDelivery c = false ∧ isStorageCall c = false) added
  ∧ history w' = history w
  ∧ localStorage w' = localStorage w
  ∧ isLoading w' = false
  ∧ searchText w' = searchText w
  ∧ listKey w' = listKey w.
Proof.
  intros Hprompt Hclient Hcontext Hanswer Hempty w' added.
  assert (Hrun : generateCommand env prompt copyOnly w
                 = (Returns (), with_isLoading false (with_calls (calls w ++ added) w))).
  { unfold generateCommand. apply truthy_true in Hprompt. rewrite Hprompt. cbn [negb].
    unfold try_catch, bind, setIsLoading, modify, new_Anthropic, messages_create,
      showToast, call, ret. cbn beta iota.
    rewrite Hclient. cbn beta iota.
    rewrite gatherContext_frame, Hcontext. cbn beta iota.
    rewrite Hanswer. cbn beta iota. rewrite Hempty. cbn [truthy negb].
    destruct w; cbn. unfold added. by rewrite <- !app_assoc. }
  subst w'. rewrite Hrun. cbn [fst snd].
  split; [done|]. split; [done|]. split; [|done].
  unfold added. apply Forall_app. split; [by repeat constructor|].
  apply Forall_app. split; [|by repeat constructor].
  eapply Forall_impl; [apply gatherContext_probes|].
  intros c Hc. by destruct c.
Qed.

Lemma empty_response_delivers_nothing_witness :
  let env := mkEnv (utf16 "sk-test") (Returns (utf16 "TODO")) (λ _, Returns (utf16 "Safari "))
               (λ _, Returns ()) (λ _, Returns [TextBlock [32; 10; 9]]) None None None in
  fst (@generateCommand ascii_host env (utf16 "list files") false empty_world) = Returns ()
  ∧ history (snd (@generateCommand ascii_host env (utf16 "list files") false empty_world)) = [].
Proof.
  intros env.
  pose proof (empty_response_delivers_nothing ascii_host env (utf16 "list files") false
                empty_world
                (mkContext (Some (utf16 "TODO")) (Some (utf16 "Safari")) None)
                [32; 10; 9] []) as Hthm.
  refine ((λ H, conj (proj1 H) (proj1 (proj2 (proj2 (proj2 H))))) (Hthm _ _ _ _ _)).
  - vm_compute. discriminate.
  - reflexivity.
  - vm_compute. reflexivity.
  - reflexivity.
  - vm_compute. reflexivity.
Defined.

(** The submission that goes through: the history is recorded, the window is
    closed, and the command is pasted or copied. *)
Lemma generateCommand_delivers (host : Host) (env : Env)
    (prompt : jsstring) (copyOnly : bool) (w : World)
    (context : Context) (text : jsstring) (rest : list ContentBlock)
    (stored : list jsstring) :
  trim prompt ≠ [] →
  Anthropic_outcome env (anthropicApiKey env) = Returns () →
  gatheredContext env = Returns context →
  messages_create_outcome env (messageRequest (buildPrompt prompt context))
    = Returns (TextBlock text :: rest) →
  trim text ≠ [] →
  fst (getHistory env w) = Returns stored →
  setItem_rejects env = None →
  generateCommand env prompt copyOnly w =
    (Returns (),
     with_history (record_spec prompt stored)
       (with_localStorage
          (<[HISTORY_KEY := JSON_stringify (record_spec prompt stored)]> (localStorage w))
          (with_isLoading true
             (with_calls
                (calls w
                 ++ [Call_Anthropic (anthropicApiKey env)] ++ probeCalls env
                 ++ [Call_messages_create (messageRequest (buildPrompt prompt context));
                     Call_LocalStorage_getItem HISTORY_KEY;
                     Call_LocalStorage_setItem HISTORY_KEY
                       (JSON_stringify (record_spec prompt stored));
                     Call_closeMainWindow;
                     if copyOnly then Call_Clipboard_copy (trim text)
                     else Call_Clipboard_paste (trim text);
                     Call_showHUD (if copyOnly then utf16 "Command copied"
                                   else utf16 "Command pasted")])
                w)))).
Proof.
  intros Hprompt Hclient Hcontext Hanswer Hcommand Hread Hwrite.
  unfold generateCommand. apply truthy_true in Hprompt. rewrite Hprompt. cbn [negb].
  apply truthy_true in Hcommand.
  unfold try_catch, bind, setIsLoading, setHistory, modify, new_Anthropic,
    messages_create, closeMainWindow, call, ret. cbn beta iota.
  rewrite Hclient. cbn beta iota.
  rewrite gatherContext_frame, Hcontext. cbn beta iota.
  rewrite Hanswer. cbn beta iota. rewrite Hcommand. cbn [negb].
  erewrite addToHistory_unfold; [|by erewrite getHistory_same_storage].
  rewrite Hwrite. cbn beta iota.
  destruct w, copyOnly; cbn; unfold Clipboard_copy, Clipboard_paste, showHUD, bind, call;
    cbn; by rewrite <- !app_assoc.
Qed.

(** C3, as the code has it.  When the command has been generated and the
    storage rejects the write of the history, the submission ends with the
    failure toast "Error" that carries the message of the rejection, and
    [isLoading] is cleared; the history of the list and the storage are as
    before.  The write is inside the same [try] as the delivery and before
    it, so the window is not closed and the command is neither pasted nor
    copied. *)
Theorem write_failure_is_surfaced_without_delivery (host : Host) (env : Env)
    (prompt : jsstring) (copyOnly : bool) (w : World)
    (context : Context) (text : jsstring) (rest : list ContentBlock)
    (stored : list jsstring) (e : thrown) :
  trim prompt ≠ [] →
  Anthropic_outcome env (anthropicApiKey env) = Returns () →
  gatheredContext env = Returns context →
  messages_create_outcome env (messageRequest (buildPrompt prompt context))
    = Returns (TextBlock text :: rest) →
  trim text ≠ [] →
  fst (getHistory env w) = Returns stored →
  setItem_rejects env = Some e →
  let w' := snd (generateCommand env prompt copyOnly w) in
  let added :=
    [Call_Anthropic (anthropicApiKey env)] ++ probeCalls env
    ++ [Call_messages_create (messageRequest (buildPrompt prompt context));
        Call_LocalStorage_getItem HISTORY_KEY;
        Call_LocalStorage_setItem HISTORY_KEY
          (JSON_stringify (take MAX_HISTORY (prompt :: filter (λ h, h ≠ prompt) stored)));
        Call_showToast Failure (utf16 "Error") (Some (errorMessage e))] in
  fst (generateCommand env prompt copyOnly w) = Returns ()
  ∧ calls w' = calls w ++ added
  ∧ Forall (λ c, isDelivery c = false ∧ c ≠ Call_closeMainWindow) added
  ∧ history w' = history w
  ∧ localStorage w' = localStorage w
  ∧ isLoading w' = false.
Proof.
  intros Hprompt Hclient Hcontext Hanswer Hcommand Hread Hwrite w' added.
  assert (Hrun : generateCommand env prompt copyOnly w
                 = (Returns (), with_isLoading false (with_calls (calls w ++ added) w))).
  { unfold generateCommand. apply truthy_true in Hprompt. rewrite Hprompt. cbn [negb].
    apply truthy_true in Hcommand.
    unfold try_catch, bind, setIsLoading, setHistory, modify, new_Anthropic,
      messages_create, showToast, call, ret. cbn beta iota.
    rewrite Hclient. cbn beta iota.
    rewrite gatherContext_frame, Hcontext. cbn beta iota.
    rewrite Hanswer. cbn beta iota. rewrite Hcommand. cbn [negb].
    erewrite addToHistory_unfold; [|by erewrite getHistory_same_storage].
    rewrite Hwrite. cbn beta iota.
    destruct w, e; cbn; unfold added, record_spec; by rewrite <- !app_assoc. }
  subst w'. rewrite Hrun. cbn [fst snd].
  split; [done|]. split; [done|]. split; [|done].
  unfold added. apply Forall_app. split; [by repeat constructor|].
  apply Forall_app. split; [|by repeat constructor].
  eapply Forall_impl; [apply gatherContext_probes|].
  intros c Hc. by destruct c.
Qed.

Lemma write_failure_is_surfaced_without_delivery_witness :
  let env := mkEnv (utf16 "sk-test") (Throws OtherValue) (λ _, Throws OtherValue)
               (λ _, Returns ()) (λ _, Returns [TextBlock (utf16 "ls -la")])
               None (Some (ErrorObject (utf16 "quota exceeded"))) None in
  isLoading (snd (@generateCommand ascii_host env (utf16 "list files") true empty_world))
  = false.
Proof.
  intros env.
  pose proof (write_failure_is_surfaced_without_delivery ascii_host env
                (utf16 "list files") true empty_world
                (mkContext None None None) (utf16 "ls -la") [] []
                (ErrorObject (utf16 "quota exceeded"))) as Hthm.
  refine ((λ H, proj2 (proj2 (proj2 (proj2 (proj2 H))))) (Hthm _ _ _ _ _ _ _)).
  - vm_compute. discriminate.
  - reflexivity.
  - vm_compute. reflexivity.
  - reflexivity.
  - vm_compute. discriminate.
  - vm_compute. reflexivity.
  - reflexivity.
Defined.

(** C3 as the specification states it fails: the backend answers [ls -la],
    the storage rejects the write, the "Error" toast is shown, and the
    command is neither pasted (first submission) nor copied (second one). *)
Lemma write_failure_loses_the_command :
  let env := mkEnv (utf16 "sk-test") (Throws OtherValue) (λ _, Throws OtherValue)
               (λ _, Returns ()) (λ _, Returns [TextBlock (utf16 "ls -la")])
               None (Some (ErrorObject (utf16 "quota exceeded"))) None in
  let attempted :=
    [ Call_Anthropic (utf16 "sk-test");
      Call_getSelectedText;
      Call_execSync appScript;
      Call_messages_create (messageRequest (utf16 "list files"));
      Call_LocalStorage_getItem HISTORY_KEY;
      Call_LocalStorage_setItem HISTORY_KEY (utf16 "[" ++ quoted "list files" ++ utf16 "]");
      Call_showToast Failure (utf16 "Error") (Some (utf16 "quota exceeded")) ] in
  calls (snd (@generateCommand ascii_host env (utf16 "list files") false empty_world))
    = attempted
  ∧ calls (snd (@generateCommand ascii_host env (utf16 "list files") true empty_world))
    = attempted
  ∧ Forall (λ c, isDelivery c = false) attempted.
Proof.
  cbv zeta. split; [vm_compute; reflexivity|].
  split; [vm_compute; reflexivity|]. by repeat constructor.
Qed.

(** ** Recall *)

Lemma runCallbacks_bumps (cbs : list Callback) (w : World) :
  runCallbacks cbs w
  = (Returns (), with_listKey (listKey w + N.of_nat (length cbs)) w).
Proof.
  revert w. induction cbs as [|[] cbs IH]; intros w.
  - destruct w; cbn. by rewrite N.add_0_r.
  - cbn [runCallbacks runCallback]. unfold bind, setListKey, modify.
    rewrite IH. destruct w; unfold with_listKey; cbn.
    do 2 f_equal. lia.
Qed.

(** C6.  "Use Prompt" on an entry puts the text of the entry into the search
    text at once and, when its timeout has run, has raised the list key by
    one.  It makes no call at all, so none to the backend; the history, the
    storage and [isLoading] are as before, so a list that was idle is idle
    with the recalled text. *)
Theorem recall_seeds_the_search_text (item : jsstring) (w : World) :
  let recalled := snd (usePrompt_onAction item w) in
  let settled := snd (runTimeouts recalled) in
  fst (usePrompt_onAction item w) = Returns ()
  ∧ fst (runTimeouts recalled) = Returns ()
  ∧ searchText recalled = item
  ∧ searchText settled = item
  ∧ listKey settled = listKey (snd (runTimeouts w)) + 1
  ∧ timeouts settled = []
  ∧ calls recalled = calls w
  ∧ calls settled = calls w
  ∧ Forall (λ c, isBackendCall c = false) (drop (length (calls w)) (calls settled))
  ∧ history settled = history w
  ∧ localStorage settled = localStorage w
  ∧ isLoading settled = isLoading w
  ∧ (isLoading w = false → isLoading recalled = false ∧ isLoading settled = false).
Proof.
  intros recalled settled. subst settled recalled.
  unfold usePrompt_onAction, runTimeouts, bind, setSearchText, setTimeout, modify.
  cbn [fst snd]. rewrite !runCallbacks_bumps. cbn [fst snd].
  destruct w as [st ld hi lk ls ts cs]; cbn.
  rewrite length_app, drop_all. cbn.
  repeat split; try done. lia.
Qed.

Lemma recall_seeds_the_search_text_witness :
  isLoading (snd (runTimeouts (snd (usePrompt_onAction (utf16 "find large files")
                                      empty_world)))) = false.
Proof.
  refine (proj2 (proj2 (proj2 (proj2 (proj2 (proj2 (proj2 (proj2 (proj2 (proj2
           (proj2 (proj2 (proj2 (recall_seeds_the_search_text
                                   (utf16 "find large files") empty_world))))))))))))
            _)).
  reflexivity.
Defined.

(** ** The other actions *)

(** The mount effect shows the stored history; when the read fails the list
    keeps its initial history. *)
Lemma Command_useEffect_outcomes (host : Host) (env : Env) (w : World) :
  Command_useEffect env w =
    match fst (getHistory env w) with
    | Returns stored =>
        (Returns (),
         with_history stored
           (with_calls (calls w ++ [Call_LocalStorage_getItem HISTORY_KEY]) w))
    | Throws e =>
        (Throws e, with_calls (calls w ++ [Call_LocalStorage_getItem HISTORY_KEY]) w)
    end.
Proof.
  unfold Command_useEffect, bind, setHistory, modify.
  rewrite getHistory_unfold. cbn [fst].
  by destruct (match getItem_rejects env with Some e => _ | None => _ end).
Qed.

(** "Clear History" removes the key and empties the list, and does so again
    when it is run a second time. *)
Lemma clearHistory_onAction_clears (env : Env) (w : World) :
  removeItem_rejects env = None →
  fst (clearHistory_onAction env w) = Returns ()
  ∧ history (snd (clearHistory_onAction env w)) = []
  ∧ localStorage (snd (clearHistory_onAction env w)) !! HISTORY_KEY = None
  ∧ fst (clearHistory_onAction env (snd (clearHistory_onAction env w))) = Returns ()
  ∧ history (snd (clearHistory_onAction env (snd (clearHistory_onAction env w)))) = [].
Proof.
  intros Hremove.
  unfold clearHistory_onAction, LocalStorage_removeItem, bind, setHistory, showToast,
    call, modify.
  rewrite Hremove. cbn. repeat split. apply lookup_delete_eq.
Qed.


(** ** The example host obeys the laws of JSON *)

Lemma hexValue_hexDigit (n : N) : n < 16 → hexValue (hexDigit n) = Some n.
Proof.
  intros Hn. unfold hexDigit, hexValue.
  destruct (n <? 10) eqn:E.
  - apply N.ltb_lt in E.
    rewrite (proj2 (N.leb_le 48 (48 + n))) by lia.
    rewrite (proj2 (N.leb_le (48 + n) 57)) by lia.
    cbn [andb]. f_equal. lia.
  - apply N.ltb_ge in E.
    rewrite (proj2 (N.leb_le 48 (87 + n))) by lia.
    rewrite (proj2 (N.leb_gt (87 + n) 57)) by lia.
    rewrite (proj2 (N.leb_le 97 (87 + n))) by lia.
    rewrite (proj2 (N.leb_le (87 + n) 102)) by lia.
    cbn [andb]. f_equal. lia.
Qed.

Lemma hex_digits (c : N) :
  c < 65536 →
  (c / 4096 mod 16) * 4096 + (c / 256 mod 16) * 256 + (c / 16 mod 16) * 16 + c mod 16 = c.
Proof.
  intros Hc.
  replace (c / 4096) with (c / 16 / 16 / 16) by (by rewrite !N.Div0.div_div).
  replace (c / 256) with (c / 16 / 16) by (by rewrite !N.Div0.div_div).
  zify. Z.to_euclidean_division_equations. lia.
Qed.

Lemma parse_unicodeEscape (c : N) (rest : jsstring) :
  c < 65536 →
  parseJSONStringBody (unicodeEscape c ++ rest) =
    match parseJSONStringBody rest with
    | Some (str, after) => Some (c :: str, after)
    | None => None
    end.
Proof.
  intros Hc. unfold unicodeEscape. cbn [app parseJSONStringBody N.eqb Pos.eqb].
  rewrite !hexValue_hexDigit by (apply N.mod_lt; lia).
  destruct (parseJSONStringBody rest) as [[str after]|]; [|done].
  by rewrite hex_digits.
Qed.

Lemma parse_plain (c : N) (s : jsstring) :
  c ≠ 34 → c ≠ 92 → 32 ≤ c →
  parseJSONStringBody (c :: s) =
    match parseJSONStringBody s with
    | Some (str, after) => Some (c :: str, after)
    | None => None
    end.
Proof.
  intros Hquote Hslash Hctl. cbn [parseJSONStringBody].
  rewrite (proj2 (N.eqb_neq c 34)), (proj2 (N.eqb_neq c 92)) by done.
  by rewrite (proj2 (N.ltb_ge c 32)).
Qed.

Lemma parse_quoteJSONChar (c : N) (rest : jsstring) :
  parseJSONStringBody (quoteJSONChar c ++ rest) =
    match parseJSONStringBody rest with
    | Some (str, after) => Some (c :: str, after)
    | None => None
    end.
Proof.
  unfold quoteJSONChar.
  repeat match goal with
         | |- context [if ?c =? ?k then _ else _] =>
             destruct (N.eqb_spec c k) as [->|?]; [reflexivity|]
         end.
  destruct ((c <? 32) || isLeadingSurrogate c || isTrailingSurrogate c) eqn:Hesc.
  - apply parse_unicodeEscape.
    unfold isLeadingSurrogate, isTrailingSurrogate in Hesc.
    repeat (apply orb_true_iff in Hesc as [Hesc|Hesc]);
      rewrite ?andb_true_iff, ?N.ltb_lt, ?N.leb_le in Hesc; lia.
  - apply orb_false_iff in Hesc as [[Hctl _]%orb_false_iff _].
    apply N.ltb_ge in Hctl. by apply parse_plain.
Qed.

Lemma parse_quoteJSONBody (s rest : jsstring) :
  parseJSONStringBody (quoteJSONBody s ++ 34 :: rest) = Some (s, rest).
Proof.
  remember (length s) as n eqn:Hn. revert s Hn.
  induction n as [n IH] using lt_wf_ind. intros s Hn.
  destruct s as [|c s]; [reflexivity|].
  cbn [quoteJSONBody]. destruct (isLeadingSurrogate c) eqn:Hlead.
  - destruct s as [|d s].
    + rewrite parse_quoteJSONChar. reflexivity.
    + destruct (isTrailingSurrogate d) eqn:Htrail.
      * unfold isLeadingSurrogate in Hlead. unfold isTrailingSurrogate in Htrail.
        rewrite andb_true_iff, !N.leb_le in Hlead, Htrail.
        cbn [app]. rewrite !parse_plain by lia.
        rewrite (IH (length s)); [done| |done]. subst n. cbn. lia.
      * rewrite <- app_assoc, parse_quoteJSONChar.
        rewrite (IH (length (d :: s))); [done| |done]. subst n. cbn. lia.
  - rewrite <- app_assoc, parse_quoteJSONChar.
    rewrite (IH (length s)); [done| |done]. subst n. cbn. lia.
Qed.

Lemma join_cons_cons (sep x y : jsstring) (l : list jsstring) :
  join sep (x :: y :: l) = x ++ sep ++ join sep (y :: l).
Proof. reflexivity. Qed.

Lemma join_length (x : jsstring) (l : list jsstring) :
  (length l ≤ length (join [44%N] (x :: l)))%nat.
Proof.
  revert x. induction l as [|y l IH]; intros x; [cbn; lia|].
  rewrite join_cons_cons, !length_app. specialize (IH y). cbn [length]. lia.
Qed.

Lemma parseJSONElements_join (l : list jsstring) (x : jsstring) (fuel : nat) :
  (length l < fuel)%nat →
  parseJSONElements fuel (join [44] (quoteJSONString <$> x :: l) ++ [93]) = Some (x :: l).
Proof.
  revert x fuel. induction l as [|y l IH]; intros x fuel Hfuel;
    (destruct fuel as [|fuel]; [cbn in Hfuel; lia|]).
  - cbn [fmap list_fmap join]. unfold quoteJSONString.
    cbn [app parseJSONElements skipJSONWhiteSpace isJSONWhiteSpace N.eqb Pos.eqb orb].
    rewrite <- app_assoc. cbn [app]. rewrite parse_quoteJSONBody. reflexivity.
  - rewrite !fmap_cons, join_cons_cons. unfold quoteJSONString at 1.
    rewrite <- !app_assoc.
    cbn [app parseJSONElements skipJSONWhiteSpace isJSONWhiteSpace N.eqb Pos.eqb orb].
    rewrite parse_quoteJSONBody.
    cbn [skipJSONWhiteSpace isJSONWhiteSpace N.eqb Pos.eqb orb].
    rewrite <- fmap_cons, IH by (cbn in Hfuel; lia). reflexivity.
Qed.

Lemma ascii_JSON_round_trip (l : list jsstring) :
  ascii_JSON_parse (ascii_JSON_stringify l) = Returns l.
Proof.
  destruct l as [|x l]; [reflexivity|].
  unfold ascii_JSON_parse, ascii_JSON_stringify.
  cbn [app skipJSONWhiteSpace isJSONWhiteSpace N.eqb Pos.eqb orb].
  assert (Hhead : ∃ tail, join [44] (quoteJSONString <$> x :: l) ++ [93] = 34 :: tail).
  { cbn [fmap list_fmap]. destruct l; cbn [join]; unfold quoteJSONString; by eexists. }
  destruct Hhead as [tail Htail]. rewrite Htail.
  cbn [skipJSONWhiteSpace isJSONWhiteSpace N.eqb Pos.eqb orb].
  rewrite <- Htail, parseJSONElements_join; [done|].
  cbn [length]. rewrite length_app, fmap_cons.
  pose proof (join_length (quoteJSONString x) (quoteJSONString <$> l)) as Hlen.
  rewrite length_fmap in Hlen. lia.
Qed.

(** ** The history that a session stores *)

Lemma ascii_host_laws : HostLaws ascii_host.
Proof.
  split.
  - apply ascii_JSON_round_trip.
  - intros l. discriminate.
Qed.

Section Invariant.
Context `{HostLaws} (env : Env).

(** Under the invariant a read that the storage accepts never meets a text
    that [JSON.parse] rejects. *)
Lemma getHistory_recorded (w : World) :
  storageInvariant w → getItem_rejects env = None →
  ∃ stored, fst (getHistory env w) = Returns stored ∧ recorded stored.
Proof.
  unfold storageInvariant. intros Hinv Hget.
  rewrite getHistory_unfold, Hget. cbn [fst].
  destruct (localStorage w !! HISTORY_KEY) as [text|]; [|exists []; split; [done|constructor]].
  destruct Hinv as (stored & -> & Hrec).
  destruct (JSON_stringify stored) eqn:Htext; [by apply JSON_stringify_truthy in Htext|].
  rewrite <- Htext, JSON_round_trip. eauto.
Qed.

(** [addToHistory] leaves the storage as it is or writes the recorded
    history under the key. *)
Lemma addToHistory_storage (prompt : jsstring) (w : World) :
  localStorage (snd (addToHistory env prompt w)) = localStorage w
  ∨ ∃ stored, fst (getHistory env w) = Returns stored
      ∧ localStorage (snd (addToHistory env prompt w))
        = <[HISTORY_KEY := JSON_stringify (record_spec prompt stored)]> (localStorage w).
Proof.
  destruct (fst (getHistory env w)) as [stored|e] eqn:Hread.
  - rewrite (addToHistory_unfold env prompt stored w Hread).
    destruct (setItem_rejects env); [by left|right; eauto].
  - left. unfold addToHistory, bind.
    rewrite getHistory_unfold in Hread |- *. cbn [fst] in Hread. by rewrite Hread.
Qed.

Lemma addToHistory_invariant (prompt : jsstring) (w : World) :
  storageInvariant w → storageInvariant (snd (addToHistory env prompt w)).
Proof.
  intros Hinv. unfold storageInvariant.
  destruct (addToHistory_storage prompt w) as [-> | (stored & Hread & ->)]; [done|].
  rewrite lookup_insert_eq. exists (record_spec prompt stored). split; [done|].
  constructor.
  rewrite getHistory_unfold in Hread. cbn [fst] in Hread.
  destruct (getItem_rejects env); [done|].
  unfold storageInvariant in Hinv.
  destruct (localStorage w !! HISTORY_KEY) as [text|]; [|injection Hread as <-; constructor].
  destruct Hinv as (stored0 & -> & Hrec).
  destruct (JSON_stringify stored0) eqn:Htext; [by apply JSON_stringify_truthy in Htext|].
  rewrite <- Htext, JSON_round_trip in Hread. by injection Hread as <-.
Qed.

End Invariant.

(** Rules for [preserves], one for each way of building a computation. *)
Lemma preserves_ret {A} (P : World → Prop) (a : A) : preserves P (ret a).
Proof. by intros w. Qed.

Lemma preserves_throw {A} (P : World → Prop) (e : thrown) : preserves P (@throw A e).
Proof. by intros w. Qed.

Lemma preserves_bind {A B} (P : World → Prop) (m : M A) (k : A → M B) :
  preserves P m → (∀ a, preserves P (k a)) → preserves P (bind m k).
Proof.
  intros Hm Hk w Hw. unfold bind. specialize (Hm w Hw).
  destruct (m w) as [[a|e] w']; [by apply Hk|done].
Qed.

Lemma preserves_try_catch {A} (P : World → Prop) (body : M A) (handler : thrown → M A) :
  preserves P body → (∀ e, preserves P (handler e)) → preserves P (try_catch body handler).
Proof.
  intros Hbody Hhandler w Hw. unfold try_catch. specialize (Hbody w Hw).
  destruct (body w) as [[a|e] w']; [done|by apply Hhandler].
Qed.

Lemma preserves_bind_value {A B} (P : World → Prop) (R : A → Prop)
    (m : M A) (k : A → M B) :
  (∀ w, P w → P (snd (m w)) ∧ ∀ a, fst (m w) = Returns a → R a) →
  (∀ a, R a → preserves P (k a)) →
  preserves P (bind m k).
Proof.
  intros Hm Hk w Hw. unfold bind. destruct (Hm w Hw) as [Hw' Ha].
  destruct (m w) as [[a|e] w']; [|done]. apply Hk; [|done]. by apply Ha.
Qed.

Section Session.
Context `{HostLaws}.

Lemma preserves_call {A} (c : Call) (o : outcome A) :
  preserves historyInvariant (call c o).
Proof. by intros w. Qed.

Lemma preserves_modify (f : World → World) :
  (∀ w, localStorage (f w) = localStorage w ∧ history (f w) = history w) →
  preserves historyInvariant (modify f).
Proof.
  intros Hf w. unfold historyInvariant, storageInvariant. cbn.
  by destruct (Hf w) as [-> ->].
Qed.

Lemma preserves_setHistory (v : list jsstring) :
  recorded v → preserves historyInvariant (setHistory v).
Proof. intros Hv w [Hstorage _]. by split. Qed.

Lemma preserves_gatherContext (env : Env) :
  preserves historyInvariant (gatherContext env).
Proof. intros w. by rewrite gatherContext_frame. Qed.

Lemma getHistory_invariant (env : Env) (w : World) :
  historyInvariant w →
  historyInvariant (snd (getHistory env w))
  ∧ ∀ stored, fst (getHistory env w) = Returns stored → recorded stored.
Proof.
  intros [Hstorage Hhistory]. rewrite getHistory_unfold. split; [done|].
  cbn [fst]. intros stored Hread.
  destruct (getItem_rejects env) eqn:Hget; [done|].
  destruct (getHistory_recorded env w Hstorage Hget) as (stored' & Hread' & Hrec).
  rewrite getHistory_unfold, Hget in Hread'. cbn [fst] in Hread'. congruence.
Qed.

Lemma addToHistory_keeps_history (env : Env) (prompt : jsstring) (w : World) :
  historyInvariant w →
  historyInvariant (snd (addToHistory env prompt w))
  ∧ ∀ updated, fst (addToHistory env prompt w) = Returns updated → recorded updated.
Proof.
  intros Hinv. destruct (getHistory_invariant env w Hinv) as [_ Hstored].
  destruct Hinv as [Hstorage Hhistory]. split.
  - split; [by apply addToHistory_invariant|].
    destruct (addToHistory_storage env prompt w) as [Hsame | (stored & Hread & _)].
    + destruct (fst (getHistory env w)) as [stored|e] eqn:Hread.
      * rewrite (addToHistory_unfold env prompt stored w Hread).
        by destruct (setItem_rejects env).
      * unfold addToHistory, bind. rewrite getHistory_unfold in Hread |- *.
        cbn [fst] in Hread. by rewrite Hread.
    + rewrite (addToHistory_unfold env prompt stored w Hread).
      by destruct (setItem_rejects env).
  - intros updated. destruct (fst (getHistory env w)) as [stored|e] eqn:Hread.
    + rewrite (addToHistory_unfold env prompt stored w Hread).
      destruct (setItem_rejects env); [done|]. intros [= <-].
      constructor. by apply Hstored.
    + unfold addToHistory, bind. rewrite getHistory_unfold in Hread |- *.
      cbn [fst] in Hread. by rewrite Hread.
Qed.

Lemma preserves_removeItem (env : Env) :
  preserves historyInvariant (LocalStorage_removeItem env HISTORY_KEY).
Proof.
  intros w [Hstorage Hhistory]. unfold LocalStorage_removeItem.
  destruct (removeItem_rejects env); [done|]. split; [|done].
  unfold storageInvariant, bind, call, modify. cbn. by rewrite lookup_delete_eq.
Qed.

Ltac preserve :=
  repeat first
    [ apply preserves_ret
    | apply preserves_throw
    | apply preserves_call
    | apply preserves_gatherContext
    | apply preserves_removeItem
    | by apply preserves_setHistory
    | apply preserves_setHistory; constructor
    | by apply preserves_modify
    | apply (preserves_bind_value _ recorded _ _ (getHistory_invariant _)); intros ? ?
    | apply (preserves_bind_value _ recorded _ _ (addToHistory_keeps_history _ _)); intros ? ?
    | apply preserves_bind; [|intros ?]
    | apply preserves_try_catch; [|intros ?]
    | case_match ].

Lemma preserves_perform (env : Env) (a : Action) :
  preserves historyInvariant (perform env a).
Proof.
  destruct a; cbn [perform].
  - unfold Command_useEffect. preserve.
  - unfold generateCommand, showToast, showHUD, setIsLoading, new_Anthropic,
      messages_create, closeMainWindow, Clipboard_copy, Clipboard_paste. preserve.
  - unfold usePrompt_onAction, setSearchText, setTimeout. preserve.
  - intros w Hw. unfold runTimeouts. by rewrite runCallbacks_bumps.
  - unfold clearHistory_onAction, showToast. preserve.
Qed.

(** Whatever the user does and whatever the collaborators answer, the
    history in the storage and the history of the list are histories that
    [record] has built from the empty one. *)
Theorem session_invariant (steps : list (Env * Action)) :
  historyInvariant (session steps).
Proof.
  unfold session. induction steps as [|[env a] steps IH] using rev_ind.
  - split; [done|constructor].
  - rewrite foldl_app. cbn [foldl fst snd]. by apply preserves_perform.
Qed.

(** So no session shows or stores a history with a duplicate or with more
    than 20 entries. *)
Corollary session_history (steps : list (Env * Action)) (env : Env) :
  (NoDup (history (session steps))
   ∧ (length (history (session steps)) ≤ 20)%nat)
  ∧ (getItem_rejects env = None →
     ∃ stored, fst (getHistory env (session steps)) = Returns stored
               ∧ NoDup stored ∧ (length stored ≤ 20)%nat).
Proof.
  destruct (session_invariant steps) as [Hstorage Hhistory].
  split; [by apply recorded_invariant|].
  intros Hget.
  destruct (getHistory_recorded env _ Hstorage Hget) as (stored & Hread & Hrec).
  exists stored. split; [done|]. by apply recorded_invariant.
Qed.

End Session.

(** ** Recording into the history *)

(** C2.  With [stored] the history that [getHistory] reads and a storage that
    accepts the write, [addToHistory] answers and stores [stored] without any
    occurrence of the entry, with the entry in front, cut to [MAX_HISTORY] =
    20.  The result has at most 20 entries and holds the entry once, at the
    front; it holds no duplicate when [stored] holds none, which is so in
    every world that a session reaches.  Recording the middle entry of three
    moves it to the front, and recording a new entry into 20 stored ones
    drops the last. *)
Theorem addToHistory_records (host : Host) (env : Env)
    (prompt : jsstring) (stored : list jsstring) (w : World) :
  fst (getHistory env w) = Returns stored →
  setItem_rejects env = None →
  let updated := take MAX_HISTORY (prompt :: filter (λ h, h ≠ prompt) stored) in
  fst (addToHistory env prompt w) = Returns updated
  ∧ localStorage (snd (addToHistory env prompt w)) !! HISTORY_KEY
    = Some (JSON_stringify updated)
  ∧ (length updated ≤ 20)%nat
  ∧ (∃ rest, updated = prompt :: rest ∧ (prompt ∉ rest) ∧ (rest `sublist_of` stored))
  ∧ (NoDup stored → NoDup updated)
  ∧ (HostLaws host → ∀ steps, w = session steps → NoDup updated)
  ∧ (∀ a c, a ≠ prompt → prompt ≠ c → stored = [a; prompt; c] →
       updated = [prompt; a; c])
  ∧ (∀ kept oldest, stored = kept ++ [oldest] → length stored = 20%nat →
       prompt ∉ stored → updated = prompt :: kept).
Proof.
  intros Hread Hwrite updated.
  rewrite (addToHistory_unfold env prompt stored w Hread), Hwrite.
  change updated with (record_spec prompt stored).
  split; [done|].
  split; [cbn; apply lookup_insert_eq|].
  split; [apply record_spec_length|].
  split.
  { eexists. split; [apply record_spec_cons|].
    split; [apply record_spec_once|apply record_spec_rest]. }
  split; [apply record_spec_NoDup|].
  split.
  { intros laws steps ->. apply record_spec_NoDup.
    destruct (getHistory_invariant env _ (session_invariant steps)) as [_ Hrec].
    by apply recorded_invariant, Hrec. }
  split.
  - intros a c Ha Hc ->. by apply record_spec_promotes.
  - intros kept oldest -> Hlen Hnew. by apply record_spec_full.
Qed.

Lemma addToHistory_records_witness :
  fst (@addToHistory ascii_host quiet_env (utf16 "B")
         (with_localStorage
            {[ HISTORY_KEY := utf16 "[" ++ quoted "A" ++ utf16 "," ++ quoted "B"
                                ++ utf16 "," ++ quoted "C" ++ utf16 "]" ]}
            empty_world))
  = Returns [utf16 "B"; utf16 "A"; utf16 "C"].
Proof.
  refine (proj1 (addToHistory_records ascii_host quiet_env (utf16 "B")
                   [utf16 "A"; utf16 "B"; utf16 "C"] _ _ _)).
  - vm_compute. reflexivity.
  - reflexivity.
Defined.

(** The history that is read matters for the last point: from a storage
    that holds a duplicate, which no session writes, the duplicate is read
    and kept. *)
Remark addToHistory_keeps_foreign_duplicates :
  fst (@addToHistory ascii_host quiet_env (utf16 "B")
         (with_localStorage
            {[ HISTORY_KEY := utf16 "[" ++ quoted "A" ++ utf16 "," ++ quoted "A"
                                ++ utf16 "]" ]}
            empty_world))
    = Returns [utf16 "B"; utf16 "A"; utf16 "A"].
Proof. vm_compute. reflexivity. Qed.

(** The same for the example host, whose JSON obeys the laws. *)
Corollary ascii_session_history (steps : list (Env * Action)) :
  NoDup (history (@session ascii_host steps))
  ∧ (length (history (@session ascii_host steps)) ≤ 20)%nat.
Proof. apply (session_history (H := ascii_host_laws) steps quiet_env). Qed.

(** * More of the command *)

(** ** How a submission ends *)

(** [addToHistory] by the answers of the storage. *)
Lemma addToHistory_outcomes `{Host} (env : Env) (prompt : jsstring) (w : World) :
  addToHistory env prompt w =
    match fst (getHistory env w) with
    | Throws e =>
        (Throws e, with_calls (calls w ++ [Call_LocalStorage_getItem HISTORY_KEY]) w)
    | Returns stored =>
        let written :=
          [Call_LocalStorage_getItem HISTORY_KEY;
           Call_LocalStorage_setItem HISTORY_KEY
             (JSON_stringify (record_spec prompt stored))] in
        match setItem_rejects env with
        | Some e => (Throws e, with_calls (calls w ++ written) w)
        | None =>
            (Returns (record_spec prompt stored),
             with_localStorage
               (<[HISTORY_KEY := JSON_stringify (record_spec prompt stored)]>
                  (localStorage w))
               (with_calls (calls w ++ written) w))
        end
    end.
Proof.
  destruct (fst (getHistory env w)) as [stored|e] eqn:Hread.
  - by rewrite (addToHistory_unfold env prompt stored w Hread).
  - unfold addToHistory, bind. rewrite getHistory_unfold in Hread |- *.
    cbn [fst] in Hread. by rewrite Hread.
Qed.

(** Every submission returns, and leaves the world of one ending. *)
Lemma generateCommand_ends `{Host} (env : Env) (prompt : jsstring) (copyOnly : bool)
    (w : World) :
  ∃ ending, ends env prompt w ending
            ∧ generateCommand env prompt copyOnly w
              = (Returns (), ended prompt copyOnly w ending).
Proof.
  destruct (trim prompt) as [|c p] eqn:Hprompt.
  { exists Rejected. split; [by constructor|].
    unfold generateCommand. by rewrite Hprompt. }
  assert (Hnonblank : trim prompt ≠ []) by (by rewrite Hprompt).
  destruct (gatherContext_returns env) as [context Hcontext].
  unfold generateCommand. rewrite Hprompt. cbn [truthy negb].
  unfold try_catch, bind, setIsLoading, setHistory, modify, new_Anthropic,
    messages_create, showToast, closeMainWindow, call, ret, throw. cbn beta iota.
  destruct (Anthropic_outcome env (anthropicApiKey env)) as [[]|e] eqn:Hclient;
    cbn beta iota.
  2: { exists (Failed [Call_Anthropic (anthropicApiKey env)] e).
       split; [by constructor|]. destruct w, e; cbn; by rewrite <- ?app_assoc. }
  rewrite gatherContext_frame, Hcontext. cbn beta iota.
  destruct (messages_create_outcome env (messageRequest (buildPrompt prompt context)))
    as [[|block rest]|e] eqn:Hanswer; cbn beta iota.
  - exists (Failed (requestCalls env prompt context) noContentError).
    split; [by apply ends_content|].
    destruct w; cbn; unfold requestCalls; by rewrite <- ?app_assoc.
  - destruct (commandOf block) as [|c' command] eqn:Hcommand.
    + exists (NoCommand (requestCalls env prompt context)).
      split; [by eapply ends_command|].
      destruct block; cbn in Hcommand; rewrite ?Hcommand; cbn;
        destruct w; cbn; unfold requestCalls; by rewrite <- ?app_assoc.
    + assert (Htruthy : commandOf block ≠ []) by (by rewrite Hcommand).
      assert (Hblock : ∃ text, block = TextBlock text) by (destruct block; by eauto).
      destruct Hblock as [text ->]. cbn in Hcommand. rewrite Hcommand. cbn [truthy negb].
      rewrite addToHistory_outcomes.
      erewrite (getHistory_same_storage env _ w) by done.
      destruct (fst (getHistory env w)) as [stored|e] eqn:Hread.
      * destruct (setItem_rejects env) as [e|] eqn:Hwrite; cbn beta iota zeta.
        -- eexists (Failed _ e). split; [by eapply ends_write|].
           destruct w, e; cbn; unfold requestCalls; by rewrite <- ?app_assoc.
        -- eexists (Delivered _ stored (commandOf (TextBlock text))). split.
           { eapply ends_delivered; eauto. }
           destruct w, copyOnly; cbn;
             unfold Clipboard_copy, Clipboard_paste, showHUD, bind, call, requestCalls;
             cbn; rewrite Hcommand; by rewrite <- ?app_assoc.
      * eexists (Failed _ e). split; [by eapply ends_read|].
        destruct w, e; cbn; unfold requestCalls; by rewrite <- ?app_assoc.
  - exists (Failed (requestCalls env prompt context) e).
    split; [by apply ends_backend|].
    destruct w, e; cbn; unfold requestCalls; by rewrite <- ?app_assoc.
Qed.

(** Up to the request nothing is shown, delivered or stored. *)
Lemma requestCalls_quiet (env : Env) (prompt : jsstring) (context : Context) :
  Forall (λ c, isNotification c = false ∧ isDelivery c = false
               ∧ isStorageCall c = false ∧ c ≠ Call_closeMainWindow)
    (requestCalls env prompt context).
Proof.
  unfold requestCalls. apply Forall_app. split; [by repeat constructor|].
  apply Forall_app. split; [|by repeat constructor].
  eapply Forall_impl; [apply gatherContext_probes|]. intros c Hc. by destruct c.
Qed.

Lemma requestCalls_silent (env : Env) (prompt : jsstring) (context : Context) :
  Forall (λ c, isNotification c = false) (requestCalls env prompt context).
Proof. eapply Forall_impl; [apply requestCalls_quiet|]. by intros c [? _]. Qed.

Lemma ended_calls `{Host} (prompt : jsstring) (copyOnly : bool) (w : World)
    (ending : Ending) :
  calls (ended prompt copyOnly w ending) =
    calls w ++
    match ending with
    | Rejected => [validationToast]
    | Failed attempted e => attempted ++ [errorToast e]
    | NoCommand attempted => attempted ++ [noCommandToast]
    | Delivered attempted _ command => attempted ++ deliveryCalls copyOnly command
    end.
Proof. by destruct ending. Qed.

Lemma added_calls (w : World) (added : list Call) :
  drop (length (calls w)) (calls w ++ added) = added.
Proof. by rewrite drop_app_length. Qed.


(** What [trim] leaves at the two ends of a string. *)
Lemma trimStart_head (s : jsstring) (c : N) :
  head (trimStart s) = Some c → isWhiteSpace c = false.
Proof.
  induction s as [|d s IH]; [done|]. cbn [trimStart].
  destruct (isWhiteSpace d) eqn:Hd; [done|]. by intros [= <-].
Qed.

Lemma trimStart_fixed (s : jsstring) :
  (∀ c, head s = Some c → isWhiteSpace c = false) → trimStart s = s.
Proof.
  destruct s as [|c s]; [done|]. intros Hhead. cbn [trimStart].
  by rewrite (Hhead c).
Qed.

Lemma trimStart_snoc_cases (s : jsstring) (c : N) :
  trimStart (s ++ [c]) = [] ∨ ∃ s', trimStart (s ++ [c]) = s' ++ [c].
Proof.
  induction s as [|d s IH].
  - cbn. destruct (isWhiteSpace c); [by left|right; by exists []].
  - cbn [app trimStart]. destruct (isWhiteSpace d); [done|]. right. by exists (d :: s).
Qed.

Lemma trimEnd_head_inv (s : jsstring) (c : N) :
  head (trimEnd s) = Some c → head s = Some c.
Proof.
  unfold trimEnd. destruct s as [|d s]; [done|]. cbn [head].
  rewrite reverse_cons.
  destruct (trimStart_snoc_cases (reverse s) d) as [-> | [s' ->]]; [done|].
  by rewrite reverse_app.
Qed.

Lemma trim_head (s : jsstring) (c : N) :
  head (trim s) = Some c → isWhiteSpace c = false.
Proof.
  unfold trim. intros Hhead. apply trimEnd_head_inv in Hhead.
  by apply trimStart_head in Hhead.
Qed.

Lemma trim_last (s : jsstring) (c : N) :
  last (trim s) = Some c → isWhiteSpace c = false.
Proof.
  unfold trim, trimEnd. rewrite last_reverse. apply trimStart_head.
Qed.

Lemma trim_idempotent (s : jsstring) : trim (trim s) = trim s.
Proof.
  unfold trim at 1. rewrite (trimStart_fixed (trim s)) by apply trim_head.
  unfold trim, trimEnd. rewrite reverse_involutive.
  rewrite (trimStart_fixed (trimStart _)); [done|]. apply trimStart_head.
Qed.

(** Tells the ending from the answers of the collaborators. *)
Ltac same_answers :=
  repeat (progress (repeat match goal with
                           | H1 : ?x = _, H2 : ?x = _ |- _ => rewrite H1 in H2
                           end;
                    simplify_eq)).

Ltac which_ending Hends :=
  destruct Hends; same_answers; try done; try congruence.









(** X4.  Whatever a submission copies or pastes is the text of the first
    block of the response, trimmed: the response starts with a text block,
    the trimmed text is not empty and has no white space left to trim, and
    it is copied when [copyOnly] is set and pasted otherwise. *)
Theorem generateCommand_delivers_the_trimmed_text (host : Host) (env : Env)
    (prompt : jsstring) (copyOnly : bool) (w : World) (delivery : Call) :
  let w' := snd (generateCommand env prompt copyOnly w) in
  delivery ∈ drop (length (calls w)) (calls w') →
  isDelivery delivery = true →
  ∃ context text rest,
    gatheredContext env = Returns context
    ∧ messages_create_outcome env (messageRequest (buildPrompt prompt context))
      = Returns (TextBlock text :: rest)
    ∧ trim text ≠ []
    ∧ trim (trim text) = trim text
    ∧ delivery = (if copyOnly then Call_Clipboard_copy (trim text)
                  else Call_Clipboard_paste (trim text)).
Proof.
  intros w'. subst w'.
  destruct (generateCommand_ends env prompt copyOnly w) as (ending & Hends & ->).
  cbn [snd]. rewrite ended_calls, added_calls.
  pose (Q := λ c : Call,
    isDelivery c = true →
    ∃ context text rest,
      gatheredContext env = Returns context
      ∧ messages_create_outcome env (messageRequest (buildPrompt prompt context))
        = Returns (TextBlock text :: rest)
      ∧ trim text ≠ []
      ∧ trim (trim text) = trim text
      ∧ c = (if copyOnly then Call_Clipboard_copy (trim text)
             else Call_Clipboard_paste (trim text))).
  assert (Hquiet : ∀ context, Forall Q (requestCalls env prompt context)).
  { intros context. eapply Forall_impl; [apply requestCalls_quiet|].
    intros c (_ & Hc & _) Hd. congruence. }
  match goal with |- _ ∈ ?l → _ => assert (Hall : Forall Q l) end.
  { destruct Hends as [| | | | | | |context block rest stored Hp Hc Hg Ha Hcmd Hread Hwrite];
      try (repeat first [apply Hquiet | apply Forall_app; split]; by repeat constructor).
    destruct block as [text|]; [|done]. cbn [commandOf] in *.
    apply Forall_app. split.
    { repeat first [apply Hquiet | apply Forall_app; split]; by repeat constructor. }
    unfold deliveryCalls. repeat constructor; try done.
    intros _. exists context, text, rest. by rewrite trim_idempotent. }
  intros Hin Hdelivery. rewrite Forall_forall in Hall. exact (Hall delivery Hin Hdelivery).
Qed.


Lemma generateCommand_delivers_the_trimmed_text_witness :
  ∃ context text rest,
    gatheredContext quiet_env = Returns context
    ∧ messages_create_outcome quiet_env
        (messageRequest (buildPrompt (utf16 "list files") context))
      = Returns (TextBlock text :: rest)
    ∧ trim text ≠ []
    ∧ trim (trim text) = trim text
    ∧ Call_Clipboard_paste (utf16 "ls -la") = Call_Clipboard_paste (trim text).
Proof.
  apply (generateCommand_delivers_the_trimmed_text ascii_host quiet_env
           (utf16 "list files") false empty_world (Call_Clipboard_paste (utf16 "ls -la"))).
  - vm_compute. repeat constructor.
  - reflexivity.
Defined.

(** ** The failures of a submission *)

(** X5.  When building the client fails, the submission stops there: no
    probe runs and no request is sent, the failure is shown in the "Error"
    toast with its message ("Unknown error" for a thrown value that is no
    [Error]), and [isLoading] is cleared.  Nothing else has changed. *)
Theorem client_failure_stops_the_submission (host : Host) (env : Env)
    (prompt : jsstring) (copyOnly : bool) (w : World) (e : thrown) :
  trim prompt ≠ [] →
  Anthropic_outcome env (anthropicApiKey env) = Throws e →
  generateCommand env prompt copyOnly w
  = (Returns (),
     with_isLoading false
       (with_calls (calls w ++ [Call_Anthropic (anthropicApiKey env);
                                Call_showToast Failure (utf16 "Error")
                                  (Some (errorMessage e))]) w)).
Proof.
  intros Hprompt Hclient.
  destruct (generateCommand_ends env prompt copyOnly w) as (ending & Hends & ->).
  which_ending Hends.
Qed.


Lemma client_failure_stops_the_submission_witness :
  let env := mkEnv [] (Returns (utf16 "TODO")) (λ _, Returns (utf16 "Safari"))
               (λ _, Throws (ErrorObject (utf16 "missing API key")))
               (λ _, Returns [TextBlock (utf16 "ls -la")]) None None None in
  calls (snd (@generateCommand ascii_host env (utf16 "list files") false empty_world))
  = [Call_Anthropic [];
     Call_showToast Failure (utf16 "Error") (Some (utf16 "missing API key"))].
Proof.
  intros env.
  pose proof (client_failure_stops_the_submission ascii_host env (utf16 "list files")
                false empty_world (ErrorObject (utf16 "missing API key"))) as Hthm.
  rewrite Hthm; [reflexivity| |reflexivity].
  vm_compute. discriminate.
Defined.

(** X6.  When the request to the backend is rejected, the failure is shown
    in the "Error" toast after the probes and the request, [isLoading] is
    cleared, and the storage is not called: nothing else has changed. *)
Theorem backend_failure_is_reported (host : Host) (env : Env)
    (prompt : jsstring) (copyOnly : bool) (w : World) (context : Context) (e : thrown) :
  trim prompt ≠ [] →
  Anthropic_outcome env (anthropicApiKey env) = Returns () →
  gatheredContext env = Returns context →
  messages_create_outcome env (messageRequest (buildPrompt prompt context)) = Throws e →
  generateCommand env prompt copyOnly w
  = (Returns (),
     with_isLoading false
       (with_calls
          (calls w ++ [Call_Anthropic (anthropicApiKey env)] ++ probeCalls env
           ++ [Call_messages_create (messageRequest (buildPrompt prompt context));
               Call_showToast Failure (utf16 "Error")
                 (Some match e with
                       | ErrorObject message => message
                       | OtherValue => utf16 "Unknown error"
                       end)]) w)).
Proof.
  intros Hprompt Hclient Hcontext Hanswer.
  destruct (generateCommand_ends env prompt copyOnly w) as (ending & Hends & ->).
  which_ending Hends.
  cbn [ended]. unfold requestCalls. by rewrite <- !app_assoc.
Qed.


Lemma backend_failure_is_reported_witness :
  let env := mkEnv (utf16 "sk-test") (Throws OtherValue) (λ _, Throws OtherValue)
               (λ _, Returns ()) (λ _, Throws OtherValue) None None None in
  last (calls (snd (@generateCommand ascii_host env (utf16 "list files") true
                      empty_world)))
  = Some (Call_showToast Failure (utf16 "Error") (Some (utf16 "Unknown error"))).
Proof.
  intros env.
  pose proof (backend_failure_is_reported ascii_host env (utf16 "list files") true
                empty_world (mkContext None None None) OtherValue) as Hthm.
  rewrite Hthm; [reflexivity| | | |].
  - vm_compute. discriminate.
  - reflexivity.
  - vm_compute. reflexivity.
  - reflexivity.
Defined.

(** X7.  When the command was generated but the history cannot be read
    (the storage rejects the read, or the stored text is no JSON), the
    submission ends with the "Error" toast right after the read: nothing is
    written, the window stays open, and the command is neither copied nor
    pasted. *)
Theorem read_failure_blocks_delivery (host : Host) (env : Env)
    (prompt : jsstring) (copyOnly : bool) (w : World)
    (context : Context) (text : jsstring) (rest : list ContentBlock) (e : thrown) :
  trim prompt ≠ [] →
  Anthropic_outcome env (anthropicApiKey env) = Returns () →
  gatheredContext env = Returns context →
  messages_create_outcome env (messageRequest (buildPrompt prompt context))
    = Returns (TextBlock text :: rest) →
  trim text ≠ [] →
  fst (getHistory env w) = Throws e →
  generateCommand env prompt copyOnly w
  = (Returns (),
     with_isLoading false
       (with_calls
          (calls w ++ [Call_Anthropic (anthropicApiKey env)] ++ probeCalls env
           ++ [Call_messages_create (messageRequest (buildPrompt prompt context));
               Call_LocalStorage_getItem HISTORY_KEY;
               Call_showToast Failure (utf16 "Error") (Some (errorMessage e))]) w)).
Proof.
  intros Hprompt Hclient Hcontext Hanswer Hcommand Hread.
  destruct (generateCommand_ends env prompt copyOnly w) as (ending & Hends & ->).
  which_ending Hends.
  cbn [ended]. unfold requestCalls. by rewrite <- !app_assoc.
Qed.


Lemma read_failure_blocks_delivery_witness :
  let env := mkEnv (utf16 "sk-test") (Throws OtherValue) (λ _, Throws OtherValue)
               (λ _, Returns ()) (λ _, Returns [TextBlock (utf16 "ls -la")])
               None None None in
  let w := with_localStorage {[ HISTORY_KEY := utf16 "oops" ]} empty_world in
  isLoading (snd (@generateCommand ascii_host env (utf16 "list files") false w)) = false
  ∧ Forall (λ c, isDelivery c = false)
      (calls (snd (@generateCommand ascii_host env (utf16 "list files") false w))).
Proof.
  intros env w.
  pose proof (read_failure_blocks_delivery ascii_host env (utf16 "list files") false w
                (mkContext None None None) (utf16 "ls -la") []
                (ErrorObject (utf16 "Unexpected token in JSON"))) as Hthm.
  rewrite Hthm; [split; [reflexivity|by repeat constructor]| | | | | |].
  - vm_compute. discriminate.
  - reflexivity.
  - vm_compute. reflexivity.
  - reflexivity.
  - vm_compute. discriminate.
  - vm_compute. reflexivity.
Defined.

(** X8.  A response that does not start with a text block delivers nothing
    and records nothing: with no block at all, reading the type of the first
    block throws and the "Error" toast shows the message of that error; with
    a first block of another type the toast is "No command generated".
    Either way [isLoading] is cleared and the storage is not called. *)
Theorem response_without_text_delivers_nothing (host : Host) (env : Env)
    (prompt : jsstring) (copyOnly : bool) (w : World)
    (context : Context) (response : list ContentBlock) :
  trim prompt ≠ [] →
  Anthropic_outcome env (anthropicApiKey env) = Returns () →
  gatheredContext env = Returns context →
  messages_create_outcome env (messageRequest (buildPrompt prompt context))
    = Returns response →
  (∀ text rest, response ≠ TextBlock text :: rest) →
  generateCommand env prompt copyOnly w
  = (Returns (),
     with_isLoading false
       (with_calls
          (calls w ++ [Call_Anthropic (anthropicApiKey env)] ++ probeCalls env
           ++ [Call_messages_create (messageRequest (buildPrompt prompt context));
               match response with
               | [] =>
                   Call_showToast Failure (utf16 "Error")
                     (Some (utf16 "Cannot read properties of undefined (reading 'type')"))
               | _ :: _ => Call_showToast Failure (utf16 "No command generated") None
               end]) w)).
Proof.
  intros Hprompt Hclient Hcontext Hanswer Hshape.
  destruct (generateCommand_ends env prompt copyOnly w) as (ending & Hends & ->).
  destruct Hends as [| | | |context' block rest' Hp Hc Hg Ha Hcmd
                     |context' block rest' e Hp Hc Hg Ha Hcmd
                     |context' block rest' stored e Hp Hc Hg Ha Hcmd
                     |context' block rest' stored Hp Hc Hg Ha Hcmd];
    same_answers; try done; try congruence;
    try (destruct block as [text|]; [by destruct (Hshape text rest')|done]).
  - cbn [ended]. unfold requestCalls. by rewrite <- !app_assoc.
  - cbn [ended]. unfold requestCalls. by rewrite <- !app_assoc.
Qed.

Lemma response_without_text_delivers_nothing_witness :
  let env := mkEnv (utf16 "sk-test") (Throws OtherValue) (λ _, Throws OtherValue)
               (λ _, Returns ()) (λ _, Returns [OtherBlock; TextBlock (utf16 "ls -la")])
               None None None in
  last (calls (snd (@generateCommand ascii_host env (utf16 "list files") false
                      empty_world)))
  = Some (Call_showToast Failure (utf16 "No command generated") None).
Proof.
  intros env.
  pose proof (response_without_text_delivers_nothing ascii_host env (utf16 "list files")
                false empty_world (mkContext None None None)
                [OtherBlock; TextBlock (utf16 "ls -la")]) as Hthm.
  rewrite Hthm; [reflexivity| | | | |].
  - vm_compute. discriminate.
  - reflexivity.
  - vm_compute. reflexivity.
  - reflexivity.
  - discriminate.
Defined.

(** ** The probes *)

(** X9.  [runAppleScript] never throws: it runs the script once and answers
    the trimmed output, which has no white space at either end and which
    [trim] leaves as it is, or [undefined] when running the script fails,
    whatever was thrown. *)
Theorem runAppleScript_trims (env : Env) (s : script) (w : World) :
  ∃ result,
    runAppleScript env s w
    = (Returns result, with_calls (calls w ++ [Call_execSync s]) w)
    ∧ result = scriptResult env s
    ∧ (∀ e, execSync_outcome env s = Throws e → result = None)
    ∧ ∀ out, result = Some out →
        trim out = out
        ∧ (∀ c, head out = Some c → isWhiteSpace c = false)
        ∧ (∀ c, last out = Some c → isWhiteSpace c = false).
Proof.
  rewrite runAppleScript_unfold. eexists. split; [reflexivity|].
  split; [reflexivity|]. split; [by intros e ->|].
  destruct (execSync_outcome env s) as [raw|]; [|done].
  intros out [= <-]. split; [apply trim_idempotent|].
  split; intros c; [apply trim_head|apply trim_last].
Qed.


(** Runs [gatherContext] on every answer of the probes. *)
Ltac run_probes env :=
  unfold gatheredContext, probeCalls, scriptResult;
  unfold gatherContext, bind, try_catch, getSelectedText, call, ret; cbn beta;
  destruct (getSelectedText_outcome env); cbn [fst snd];
  rewrite runAppleScript_unfold; cbn beta iota;
  destruct (execSync_outcome env appScript); cbn beta iota;
  repeat case_bool_decide; cbn [orb];
  repeat first
    [ rewrite runAppleScript_unfold
    | progress cbn beta iota
    | match goal with |- context [if ?b then _ else _] => destruct b end
    | match goal with |- context [execSync_outcome env ?s] =>
        destruct (execSync_outcome env s) end ];
  cbn.

Ltac probed scripts :=
  exists scripts; (split; [reflexivity|]); (split; [reflexivity|]);
  (split; [set_solver|]); (split; [reflexivity|]); (split; [reflexivity|]);
  split; intros ? [= <-]; apply trim_idempotent.

(** X10.  [gatherContext] never throws: a failing probe leaves its field
    [undefined].  It asks for the selected text, then runs the script of the
    foreground app, then at most two scripts for the directory: the one of
    Terminal, the one of Terminal and its fallback, or the one of iTerm.
    The selected text is taken as it is; the app and the directory are
    trimmed outputs. *)
Theorem gatherContext_never_fails (env : Env) (w : World) :
  ∃ context scripts,
    gatherContext env w
    = (Returns context,
       with_calls (calls w ++ Call_getSelectedText :: Call_execSync appScript
                             :: (Call_execSync <$> scripts)) w)
    ∧ scripts ∈ [ []; [terminalDirScript]; [terminalDirScript; terminalWindowScript];
                  [itermDirScript] ]
    ∧ selectedText context
      = match getSelectedText_outcome env with
        | Returns text => Some text
        | Throws _ => None
        end
    ∧ currentApp context = scriptResult env appScript
    ∧ (∀ app, currentApp context = Some app → trim app = app)
    ∧ (∀ dir, currentDirectory context = Some dir → trim dir = dir).
Proof.
  rewrite gatherContext_frame.
  assert (Hshape : ∃ context scripts,
    gatheredContext env = Returns context
    ∧ probeCalls env = Call_getSelectedText :: Call_execSync appScript
                       :: (Call_execSync <$> scripts)
    ∧ scripts ∈ [ []; [terminalDirScript]; [terminalDirScript; terminalWindowScript];
                  [itermDirScript] ]
    ∧ selectedText context
      = match getSelectedText_outcome env with
        | Returns text => Some text
        | Throws _ => None
        end
    ∧ currentApp context = scriptResult env appScript
    ∧ (∀ app, currentApp context = Some app → trim app = app)
    ∧ (∀ dir, currentDirectory context = Some dir → trim dir = dir)).
  { run_probes env; eexists;
      first [ probed (@nil script) | probed [terminalDirScript]
            | probed [terminalDirScript; terminalWindowScript] | probed [itermDirScript] ]. }
  destruct Hshape as (context & scripts & -> & -> & Hscripts & Hrest).
  by exists context, scripts.
Qed.

(** X11.  Only a terminal is asked for its directory: a context with a
    directory names Terminal, iTerm2 or iTerm as its app, and when the
    foreground app is none of the three, no directory script runs and the
    context has no directory. *)
Theorem directory_is_asked_of_terminals_only (env : Env) (context : Context) :
  gatheredContext env = Returns context →
  (is_Some (currentDirectory context) →
     ∃ app, currentApp context = Some app ∧ app ∈ terminals)
  ∧ ((∀ app, currentApp context = Some app → app ∉ terminals) →
       currentDirectory context = None
       ∧ probeCalls env = [Call_getSelectedText; Call_execSync appScript]).
Proof.
  intros Hcontext. split.
  - intros Hdir.
    destruct (gatherContext_directory env context Hcontext Hdir) as [Happ|[Happ|Happ]];
      eexists; (split; [exact Happ|]); unfold terminals; set_solver.
  - revert Hcontext. run_probes env; intros [= <-]; cbn; intros Hnot;
      try done;
      match goal with
      | H : Some ?a = Some _ |- _ =>
          exfalso; apply (Hnot a); [done|]; injection H as ->; unfold terminals; set_solver
      end.
Qed.


Lemma directory_is_asked_of_terminals_only_witness :
  let env := mkEnv (utf16 "sk-test") (Throws OtherValue)
               (λ s, match s with
                     | appScript => Returns (utf16 "Safari" ++ [LF])
                     | _ => Returns (utf16 "/tmp")
                     end)
               (λ _, Returns ()) (λ _, Returns []) None None None in
  currentDirectory (mkContext None (Some (utf16 "Safari")) None) = None
  ∧ probeCalls env = [Call_getSelectedText; Call_execSync appScript].
Proof.
  intros env.
  apply (proj2 (directory_is_asked_of_terminals_only env
                  (mkContext None (Some (utf16 "Safari")) None) eq_refl)).
  intros app [= <-]. unfold terminals. vm_compute.
  intros Hin. repeat (apply elem_of_cons in Hin as [Hin|Hin]; [discriminate Hin|]).
  by apply elem_of_nil in Hin.
Defined.

(** X12.  In the prompt a directory line never comes without the app line:
    when the gathered context keeps a directory, its app is Terminal, iTerm2
    or iTerm, which are all relevant, so the context block starts with the
    "Current app: " line followed by the "Current directory: " line. *)
Theorem directory_line_comes_with_the_app_line (env : Env) (context : Context)
    (userPrompt dir : jsstring) :
  gatheredContext env = Returns context →
  currentDirectory (relevanceFilter context) = Some dir →
  ∃ app lines,
    app ∈ terminals
    ∧ currentApp context = Some app
    ∧ contextLines (relevanceFilter context)
      = (utf16 "Current app: " ++ app) :: (utf16 "Current directory: " ++ dir) :: lines
    ∧ buildPrompt userPrompt context
      = utf16 "Context:" ++ [LF]
          ++ join [LF] ((utf16 "Current app: " ++ app)
                        :: (utf16 "Current directory: " ++ dir) :: lines)
          ++ [LF; LF] ++ utf16 "Request: " ++ userPrompt.
Proof.
  intros Hcontext Hdir.
  pose proof Hdir as Hkept. apply kept_directory in Hkept as [Hpresent Hne].
  destruct (gatherContext_directory env context Hcontext) as [Happ|[Happ|Happ]];
    [by eexists| | |];
    (eexists _, _; split; [|split; [exact Happ|]];
     [unfold terminals; set_solver|];
     assert (Hkeptapp : currentApp (relevanceFilter context) = currentApp context)
       by (rewrite Happ; apply kept_app; split; [done|by vm_compute]);
     rewrite buildPrompt_assembles; unfold contextLines;
     rewrite Hkeptapp, Happ, Hdir; cbn [labeled app]; split; reflexivity).
Qed.

Lemma directory_line_comes_with_the_app_line_witness :
  let env := mkEnv (utf16 "sk-test") (Throws OtherValue)
               (λ s, match s with
                     | appScript => Returns (utf16 "Terminal" ++ [LF])
                     | terminalDirScript => Returns []
                     | _ => Returns (utf16 "~/src ")
                     end)
               (λ _, Returns ()) (λ _, Returns []) None None None in
  ∃ app lines,
    app ∈ terminals
    ∧ currentApp (mkContext None (Some (utf16 "Terminal")) (Some (utf16 "~/src")))
      = Some app
    ∧ contextLines (relevanceFilter
                      (mkContext None (Some (utf16 "Terminal")) (Some (utf16 "~/src"))))
      = (utf16 "Current app: " ++ app) :: (utf16 "Current directory: " ++ utf16 "~/src")
        :: lines
    ∧ buildPrompt (utf16 "ls")
        (mkContext None (Some (utf16 "Terminal")) (Some (utf16 "~/src")))
      = utf16 "Context:" ++ [LF]
          ++ join [LF] ((utf16 "Current app: " ++ app)
                        :: (utf16 "Current directory: " ++ utf16 "~/src") :: lines)
          ++ [LF; LF] ++ utf16 "Request: " ++ utf16 "ls".
Proof.
  intros env.
  apply (directory_line_comes_with_the_app_line env
           (mkContext None (Some (utf16 "Terminal")) (Some (utf16 "~/src")))
           (utf16 "ls") (utf16 "~/src")).
  - vm_compute. reflexivity.
  - vm_compute. reflexivity.
Defined.

(** ** The history through the storage *)

Lemma record_spec_idempotent (entry : jsstring) (stored : list jsstring) :
  record_spec entry (record_spec entry stored) = record_spec entry stored.
Proof.
  rewrite (record_spec_cons entry stored), record_spec_cons.
  rewrite filter_cons_False by (intros Hne; by apply Hne).
  rewrite filter_absent by apply record_spec_once.
  by rewrite take_take.
Qed.

Lemma record_spec_twice (a b : jsstring) (stored : list jsstring) :
  a ≠ b →
  ∃ rest, record_spec b (record_spec a stored) = b :: a :: rest
          ∧ (a ∉ rest) ∧ (b ∉ rest) ∧ rest `sublist_of` stored.
Proof.
  intros Hab. rewrite (record_spec_cons a stored), record_spec_cons.
  rewrite filter_cons_True by done.
  exists (take 18 (filter (λ h, h ≠ b) (take 19 (filter (λ h, h ≠ a) stored)))).
  split; [done|]. split; [|split].
  - intros Hin. eapply elem_of_sublist in Hin; [|apply sublist_take].
    apply list_elem_of_filter in Hin as [_ Hin]. by apply record_spec_once in Hin.
  - intros Hin. eapply elem_of_sublist in Hin; [|apply sublist_take].
    apply list_elem_of_filter in Hin as [Hne _]. by apply Hne.
  - etrans; [apply sublist_take|]. etrans; [apply sublist_filter|].
    apply record_spec_rest.
Qed.

Lemma record_spec_entries (P : jsstring → Prop) (entry : jsstring)
    (stored : list jsstring) :
  P entry → Forall P stored → Forall P (record_spec entry stored).
Proof.
  intros Hentry Hstored. rewrite record_spec_cons. constructor; [done|].
  apply Forall_forall. intros h Hin. rewrite Forall_forall in Hstored.
  apply Hstored. eapply elem_of_sublist; [exact Hin|apply record_spec_rest].
Qed.

(** With a host that obeys the laws, a list that was written is the list
    that is read. *)
Section ReadBack.
Context `{HostLaws}.

Lemma getHistory_reads_written (env : Env) (w : World) (written : list jsstring) :
  getItem_rejects env = None →
  localStorage w !! HISTORY_KEY = Some (JSON_stringify written) →
  fst (getHistory env w) = Returns written.
Proof.
  intros Hget Hstored. rewrite getHistory_unfold, Hget, Hstored. cbn [fst].
  destruct (JSON_stringify written) eqn:Htext; [by apply JSON_stringify_truthy in Htext|].
  by rewrite <- Htext, JSON_round_trip.
Qed.

Lemma addToHistory_read_back (env env' : Env) (prompt : jsstring)
    (stored : list jsstring) (w : World) :
  fst (getHistory env w) = Returns stored →
  setItem_rejects env = None →
  getItem_rejects env' = None →
  fst (getHistory env' (snd (addToHistory env prompt w)))
  = Returns (record_spec prompt stored).
Proof.
  intros Hread Hwrite Hget. apply getHistory_reads_written; [done|].
  rewrite (addToHistory_unfold env prompt stored w Hread), Hwrite. cbn.
  apply lookup_insert_eq.
Qed.

End ReadBack.

(** X13.  What [addToHistory] answers is what the storage then holds: with
    a host whose JSON reads back what it writes, a later [getHistory] answers
    the list that [addToHistory] answered, and a later mount shows it,
    whatever else the collaborators answer by then, as long as the read is
    accepted. *)
Theorem recorded_history_is_read_back (host : Host) (laws : HostLaws host)
    (env env' : Env) (prompt : jsstring) (stored : list jsstring) (w : World) :
  fst (getHistory env w) = Returns stored →
  setItem_rejects env = None →
  getItem_rejects env' = None →
  let w' := snd (addToHistory env prompt w) in
  fst (getHistory env' w') = fst (addToHistory env prompt w)
  ∧ fst (Command_useEffect env' w') = Returns ()
  ∧ Returns (history (snd (Command_useEffect env' w'))) = fst (addToHistory env prompt w).
Proof.
  intros Hread Hwrite Hget w'. subst w'.
  pose proof (addToHistory_read_back env env' prompt stored w Hread Hwrite Hget) as Hback.
  rewrite Command_useEffect_outcomes, Hback.
  rewrite (addToHistory_unfold env prompt stored w Hread), Hwrite. by cbn.
Qed.


Lemma recorded_history_is_read_back_witness :
  let w' := snd (@addToHistory ascii_host quiet_env (utf16 "list files") empty_world) in
  fst (@getHistory ascii_host quiet_env w')
  = fst (@addToHistory ascii_host quiet_env (utf16 "list files") empty_world)
  ∧ fst (@Command_useEffect ascii_host quiet_env w') = Returns ()
  ∧ Returns (history (snd (@Command_useEffect ascii_host quiet_env w')))
    = fst (@addToHistory ascii_host quiet_env (utf16 "list files") empty_world).
Proof.
  apply (recorded_history_is_read_back ascii_host ascii_host_laws quiet_env quiet_env
           (utf16 "list files") [] empty_world).
  - vm_compute. reflexivity.
  - reflexivity.
  - reflexivity.
Defined.

(** X14.  Recording the same prompt twice in a row is recording it once:
    the second [addToHistory] answers the list of the first and leaves the
    storage as the first left it. *)
Theorem recording_twice_is_recording_once (host : Host) (laws : HostLaws host)
    (env : Env) (prompt : jsstring) (stored : list jsstring) (w : World) :
  fst (getHistory env w) = Returns stored →
  setItem_rejects env = None →
  let w' := snd (addToHistory env prompt w) in
  fst (addToHistory env prompt w') = fst (addToHistory env prompt w)
  ∧ localStorage (snd (addToHistory env prompt w')) = localStorage w'.
Proof.
  intros Hread Hwrite w'. subst w'.
  assert (Hget : getItem_rejects env = None).
  { rewrite getHistory_unfold in Hread. cbn [fst] in Hread.
    by destruct (getItem_rejects env). }
  pose proof (addToHistory_read_back env env prompt stored w Hread Hwrite Hget) as Hback.
  rewrite (addToHistory_unfold env prompt _ _ Hback), Hwrite.
  rewrite (addToHistory_unfold env prompt stored w Hread), Hwrite.
  cbn [fst snd]. rewrite record_spec_idempotent. split; [done|].
  cbn. by rewrite insert_insert_eq.
Qed.


Lemma recording_twice_is_recording_once_witness :
  let w' := snd (@addToHistory ascii_host quiet_env (utf16 "list files") empty_world) in
  fst (@addToHistory ascii_host quiet_env (utf16 "list files") w')
  = fst (@addToHistory ascii_host quiet_env (utf16 "list files") empty_world)
  ∧ localStorage (snd (@addToHistory ascii_host quiet_env (utf16 "list files") w'))
    = localStorage w'.
Proof.
  apply (recording_twice_is_recording_once ascii_host ascii_host_laws quiet_env
           (utf16 "list files") [] empty_world).
  - vm_compute. reflexivity.
  - reflexivity.
Defined.

(** X15.  The history is in order of last use: after [a] and then another
    prompt [b] were recorded, the list starts with [b], then [a], and the
    rest holds neither of them and is what is left of the entries stored
    before, in their order. *)
Theorem later_record_goes_in_front (host : Host) (laws : HostLaws host)
    (env env' : Env) (a b : jsstring) (stored : list jsstring) (w : World) :
  fst (getHistory env w) = Returns stored →
  setItem_rejects env = None →
  getItem_rejects env' = None →
  setItem_rejects env' = None →
  a ≠ b →
  ∃ rest,
    fst (addToHistory env' b (snd (addToHistory env a w))) = Returns (b :: a :: rest)
    ∧ (a ∉ rest) ∧ (b ∉ rest) ∧ rest `sublist_of` stored.
Proof.
  intros Hread Hwrite Hget' Hwrite' Hab.
  pose proof (addToHistory_read_back env env' a stored w Hread Hwrite Hget') as Hback.
  destruct (record_spec_twice a b stored Hab) as (rest & Htwice & Hrest).
  exists rest. split; [|done].
  by rewrite (addToHistory_unfold env' b _ _ Hback), Hwrite', <- Htwice.
Qed.

Lemma later_record_goes_in_front_witness :
  ∃ rest,
    fst (@addToHistory ascii_host quiet_env (utf16 "b")
           (snd (@addToHistory ascii_host quiet_env (utf16 "a")
                   (with_localStorage
                      {[ HISTORY_KEY := utf16 "[" ++ quoted "b" ++ utf16 "," ++ quoted "c"
                                          ++ utf16 "]" ]}
                      empty_world))))
    = Returns (utf16 "b" :: utf16 "a" :: rest)
    ∧ (utf16 "a" ∉ rest) ∧ (utf16 "b" ∉ rest)
    ∧ rest `sublist_of` [utf16 "b"; utf16 "c"].
Proof.
  apply (later_record_goes_in_front ascii_host ascii_host_laws quiet_env quiet_env).
  - vm_compute. reflexivity.
  - reflexivity.
  - reflexivity.
  - reflexivity.
  - vm_compute. discriminate.
Defined.

(** ** The entries of a session *)

(** A property of the prompts that pass the guard is a property of every
    entry: the history only grows by [record] of such a prompt. *)
Section Entries.
Context `{HostLaws} (P : jsstring → Prop).

Lemma getHistory_entries (env : Env) (w : World) (stored : list jsstring) :
  entriesInvariant P w → fst (getHistory env w) = Returns stored → Forall P stored.
Proof.
  intros [_ Hstorage]. rewrite getHistory_unfold. cbn [fst].
  destruct (getItem_rejects env); [done|].
  destruct (localStorage w !! HISTORY_KEY) as [text|]; [|by intros [= <-]].
  destruct Hstorage as (stored0 & -> & Hstored).
  destruct (JSON_stringify stored0) eqn:Htext; [by apply JSON_stringify_truthy in Htext|].
  rewrite <- Htext, JSON_round_trip. by intros [= <-].
Qed.

Lemma perform_entries (env : Env) (a : Action) (w : World) :
  (∀ prompt copyOnly, a = Submit prompt copyOnly → trim prompt ≠ [] → P prompt) →
  entriesInvariant P w → entriesInvariant P (snd (perform env a w)).
Proof.
  intros Hsubmitted Hinv. destruct a as [|prompt copyOnly|item| |]; cbn [perform].
  - rewrite Command_useEffect_outcomes.
    destruct (fst (getHistory env w)) as [stored|e] eqn:Hread; [|done].
    split; [|apply Hinv]. by apply (getHistory_entries env w).
  - destruct (generateCommand_ends env prompt copyOnly w) as (ending & Hends & ->).
    cbn [snd].
    destruct Hends as [| | | | | | |context block rest stored Hprompt _ _ _ _ Hread _];
      try exact Hinv.
    assert (Hrecorded : Forall P (record_spec prompt stored)).
    { apply record_spec_entries; [by eapply Hsubmitted|].
      by apply (getHistory_entries env w). }
    split; [done|]. unfold ended. cbn. rewrite lookup_insert_eq. eauto.
  - exact Hinv.
  - unfold runTimeouts. rewrite runCallbacks_bumps. exact Hinv.
  - unfold clearHistory_onAction, LocalStorage_removeItem, bind, setHistory, showToast,
      call, modify.
    destruct (removeItem_rejects env); [exact Hinv|].
    split; [constructor|]. cbn. by rewrite lookup_delete_eq.
Qed.

End Entries.

Lemma entriesInvariant_impl `{Host} (P Q : jsstring → Prop) (w : World) :
  (∀ e, P e → Q e) → entriesInvariant P w → entriesInvariant Q w.
Proof.
  intros HPQ [Hhistory Hstorage]. split; [by eapply Forall_impl|].
  destruct (localStorage w !! HISTORY_KEY) as [text|]; [|done].
  destruct Hstorage as (stored & -> & Hstored). exists stored.
  split; [done|by eapply Forall_impl].
Qed.

Lemma session_entries `{HostLaws} (steps : list (Env * Action)) :
  entriesInvariant (submittedIn steps) (session steps).
Proof.
  unfold session. induction steps as [|[env a] steps IH] using rev_ind.
  - split; [constructor|done].
  - rewrite foldl_app. cbn [foldl fst snd]. apply perform_entries.
    + intros prompt copyOnly -> Hprompt. split; [done|].
      exists env, copyOnly. apply elem_of_app. right. apply list_elem_of_singleton. done.
    + eapply entriesInvariant_impl; [|exact IH].
      intros e (Hnonblank & env' & copyOnly & Hin). split; [done|].
      exists env', copyOnly. apply elem_of_app. by left.
Qed.

Lemma filteredHistory_sublist `{Host} (query : jsstring) (stored : list jsstring) :
  filteredHistory query stored `sublist_of` stored.
Proof. unfold filteredHistory. destruct (truthy (trim query)); [apply sublist_filter|done]. Qed.

Lemma includes_self (s : jsstring) : includes s s = true.
Proof. apply includes_spec. exists [], []. by rewrite app_nil_r. Qed.

Lemma filteredHistory_keeps_the_query `{Host} (item : jsstring) (stored : list jsstring) :
  item ∈ stored → item ∈ filteredHistory item stored.
Proof.
  intros Hin. unfold filteredHistory. destruct (truthy (trim item)); [|done].
  apply list_elem_of_filter. split; [apply includes_self|done].
Qed.

(** X16.  Whatever was typed into the search bar, the "History" section of a
    session lists no entry twice and at most 20 entries, in the order of the
    history. *)
Theorem session_lists_no_entry_twice (host : Host) (laws : HostLaws host)
    (steps : list (Env * Action)) (query : jsstring) :
  let listed := filteredHistory query (history (session steps)) in
  NoDup listed
  ∧ (length listed ≤ 20)%nat
  ∧ listed `sublist_of` history (session steps).
Proof.
  intros listed. subst listed.
  destruct (session_invariant steps) as [_ Hhistory].
  apply recorded_invariant in Hhistory as [Hnodup Hlength].
  pose proof (filteredHistory_sublist query (history (session steps))) as Hsub.
  split; [by eapply sublist_NoDup|]. split; [|done].
  apply sublist_length in Hsub. lia.
Qed.


Lemma session_lists_no_entry_twice_witness :
  let listed := @filteredHistory ascii_host (utf16 "LIST")
                  (history (@session ascii_host
                              [(quiet_env, Submit (utf16 "list files") false);
                               (quiet_env, Submit (utf16 "disk usage") true);
                               (quiet_env, Submit (utf16 "list files") true)])) in
  listed = [utf16 "list files"] ∧ NoDup listed.
Proof.
  intros listed. split; [vm_compute; reflexivity|].
  apply (session_lists_no_entry_twice ascii_host ascii_host_laws).
Defined.




(** ** The view *)

Lemma historyItem_titles (items : list jsstring) :
  item_title <$> imap historyItem items = items.
Proof.
  rewrite fmap_imap. unfold compose. cbn.
  induction items as [|item items IH]; [done|].
  cbn. f_equal. rewrite <- IH at 2. apply imap_ext. done.
Qed.

Lemma historyItem_actions (items : list jsstring) (a : Action) :
  a ∈ onAction <$> mjoin (item_actions <$> imap historyItem items) →
  a = ClearHistory ∨ ∃ item, item ∈ items ∧ a = UsePrompt item.
Proof.
  intros Hin. apply list_elem_of_fmap in Hin as (el & -> & Hin).
  apply list_elem_of_join in Hin as (acts & Hel & Hacts).
  apply list_elem_of_fmap in Hacts as (it & -> & Hit).
  apply elem_of_lookup_imap_1 in Hit as (i & item & -> & Hlookup).
  cbn in Hel. apply elem_of_cons in Hel as [->|Hel].
  - right. exists item. split; [by eapply list_elem_of_lookup_2|done].
  - apply list_elem_of_singleton in Hel as ->. by left.
Qed.

Lemma offered_render `{Host} (w : World) :
  offered (Command_render w)
  = (if truthy (trim (searchText w))
     then [Submit (searchText w) false; Submit (searchText w) true] else [])
    ++ match filteredHistory (searchText w) (history w) with
       | [] => []
       | filtered => onAction <$> mjoin (item_actions <$> imap historyItem filtered)
       end.
Proof.
  unfold offered, Command_render. cbn [view_generate view_history].
  rewrite fmap_app. f_equal.
  - by destruct (truthy (trim (searchText w))).
  - by destruct (filteredHistory (searchText w) (history w)).
Qed.

Lemma offered_submission `{Host} (w : World) (prompt : jsstring) (copyOnly : bool) :
  Submit prompt copyOnly ∈ offered (Command_render w) →
  prompt = searchText w ∧ trim prompt ≠ [].
Proof.
  rewrite offered_render. intros Hin.
  apply elem_of_app in Hin as [Hin|Hin].
  - destruct (trim (searchText w)) eqn:Htrim; cbn [truthy] in Hin;
      [by apply elem_of_nil in Hin|].
    assert (prompt = searchText w) as ->.
    { apply elem_of_cons in Hin as [[= -> _]|Hin]; [done|].
      apply list_elem_of_singleton in Hin. by injection Hin as -> _. }
    by rewrite Htrim.
  - destruct (filteredHistory (searchText w) (history w)) as [|item filtered];
      [by apply elem_of_nil in Hin|].
    apply historyItem_actions in Hin as [?|(? & _ & ?)]; done.
Qed.

Lemma offered_recall `{Host} (w : World) (item : jsstring) :
  UsePrompt item ∈ offered (Command_render w) →
  item ∈ filteredHistory (searchText w) (history w).
Proof.
  rewrite offered_render. intros Hin.
  apply elem_of_app in Hin as [Hin|Hin].
  - destruct (truthy (trim (searchText w))); [|by apply elem_of_nil in Hin].
    apply elem_of_cons in Hin as [?|Hin]; [done|].
    by apply list_elem_of_singleton in Hin.
  - destruct (filteredHistory (searchText w) (history w)) as [|item' filtered];
      [by apply elem_of_nil in Hin|].
    apply historyItem_actions in Hin as [?|(item'' & Hitem & [= ->])]; done.
Qed.

Lemma filteredHistory_nil `{Host} (query : jsstring) : filteredHistory query [] = [].
Proof. unfold filteredHistory. by destruct (truthy (trim query)). Qed.

(** ** Clearing the history *)

(** X18.  "Clear History", when the storage accepts the removal, removes the
    key, empties the list and shows the toast "History cleared".  Afterwards
    there is nothing to read: [getHistory] answers the empty list, a mount
    shows the empty list, and the list has no "History" section, so it no
    longer offers "Clear History". *)
Theorem clearing_leaves_nothing_to_read (host : Host) (env env' : Env) (w : World) :
  removeItem_rejects env = None →
  getItem_rejects env' = None →
  let cleared := snd (clearHistory_onAction env w) in
  fst (clearHistory_onAction env w) = Returns ()
  ∧ calls cleared
    = calls w ++ [Call_LocalStorage_removeItem HISTORY_KEY;
                  Call_showToast Success (utf16 "History cleared") None]
  ∧ history cleared = []
  ∧ localStorage cleared = delete HISTORY_KEY (localStorage w)
  ∧ fst (getHistory env' cleared) = Returns []
  ∧ history (snd (Command_useEffect env' cleared)) = []
  ∧ view_history (Command_render cleared) = None
  ∧ ClearHistory ∉ offered (Command_render cleared).
Proof.
  intros Hremove Hget cleared.
  assert (Hcleared : clearHistory_onAction env w
    = (Returns (),
       with_calls (calls w ++ [Call_LocalStorage_removeItem HISTORY_KEY;
                               Call_showToast Success (utf16 "History cleared") None])
         (with_history [] (with_localStorage (delete HISTORY_KEY (localStorage w)) w)))).
  { unfold clearHistory_onAction, LocalStorage_removeItem, bind, setHistory, showToast,
      call, modify. rewrite Hremove. destruct w; cbn. by rewrite <- app_assoc. }
  subst cleared. rewrite Hcleared. cbn [fst snd].
  set (cleared := with_calls _ _).
  assert (Hread : fst (getHistory env' cleared) = Returns []).
  { rewrite getHistory_unfold, Hget. cbn. by rewrite lookup_delete_eq. }
  split; [done|]. split; [done|]. split; [done|]. split; [done|]. split; [done|].
  split; [by rewrite Command_useEffect_outcomes, Hread|].
  split.
  - unfold Command_render. cbn [view_history]. change (history cleared) with (@nil jsstring).
    by rewrite filteredHistory_nil.
  - rewrite offered_render. change (history cleared) with (@nil jsstring).
    rewrite filteredHistory_nil, app_nil_r.
    destruct (truthy (trim (searchText cleared))); [|apply not_elem_of_nil].
    intros Hin. apply elem_of_cons in Hin as [?|Hin]; [done|].
    by apply list_elem_of_singleton in Hin.
Qed.


Lemma clearing_leaves_nothing_to_read_witness :
  let w := @session ascii_host [(quiet_env, Submit (utf16 "list files") false)] in
  history w = [utf16 "list files"]
  ∧ history (snd (@clearHistory_onAction quiet_env w)) = []
  ∧ fst (@getHistory ascii_host quiet_env (snd (@clearHistory_onAction quiet_env w)))
    = Returns [].
Proof.
  intros w. split; [vm_compute; reflexivity|].
  pose proof (clearing_leaves_nothing_to_read ascii_host quiet_env quiet_env w
                eq_refl eq_refl) as Hthm.
  cbv zeta in Hthm. split; [apply Hthm|apply Hthm].
Defined.

(** X19.  When the storage rejects the removal, "Clear History" throws the
    rejection, which its handler does not catch: the list and the storage are
    as before, no toast is shown, and the list looks as it did. *)
Theorem failed_clearing_changes_nothing (host : Host) (env : Env) (w : World)
    (e : thrown) :
  removeItem_rejects env = Some e →
  let w' := snd (clearHistory_onAction env w) in
  fst (clearHistory_onAction env w) = Throws e
  ∧ calls w' = calls w ++ [Call_LocalStorage_removeItem HISTORY_KEY]
  ∧ history w' = history w
  ∧ localStorage w' = localStorage w
  ∧ Command_render w' = Command_render w.
Proof.
  intros Hremove w'. subst w'.
  unfold clearHistory_onAction, LocalStorage_removeItem, bind, call.
  rewrite Hremove. by destruct w.
Qed.


Lemma failed_clearing_changes_nothing_witness :
  let env := mkEnv (utf16 "sk-test") (Throws OtherValue) (λ _, Throws OtherValue)
               (λ _, Returns ()) (λ _, Returns []) None None
               (Some (ErrorObject (utf16 "storage is locked"))) in
  let w := with_history [utf16 "list files"] empty_world in
  let w' := snd (@clearHistory_onAction env w) in
  fst (@clearHistory_onAction env w) = Throws (ErrorObject (utf16 "storage is locked"))
  ∧ calls w' = calls w ++ [Call_LocalStorage_removeItem HISTORY_KEY]
  ∧ history w' = history w
  ∧ localStorage w' = localStorage w
  ∧ @Command_render ascii_host w' = @Command_render ascii_host w.
Proof.
  intros env w.
  apply (failed_clearing_changes_nothing ascii_host env w
           (ErrorObject (utf16 "storage is locked"))).
  reflexivity.
Defined.

(** ** What the list offers *)

(** X20.  A submission that the list offers passes the guard of
    [generateCommand]: its prompt is the search text, which is not blank
    when the "Generate Command" item is shown, so the submission starts by
    building the client and never shows "Please enter a description". *)
Theorem offered_submission_passes_the_guard (host : Host) (env : Env) (w : World)
    (prompt : jsstring) (copyOnly : bool) :
  Submit prompt copyOnly ∈ offered (Command_render w) →
  let added := drop (length (calls w))
                 (calls (snd (generateCommand env prompt copyOnly w))) in
  prompt = searchText w
  ∧ head added = Some (Call_Anthropic (anthropicApiKey env))
  ∧ validationToast ∉ added.
Proof.
  intros Hoffered added. subst added.
  apply offered_submission in Hoffered as [-> Hprompt]. split; [done|].
  destruct (generateCommand_ends env (searchText w) copyOnly w) as (ending & Hends & ->).
  cbn [snd]. rewrite ended_calls, added_calls.
  assert (Hrequest : ∀ context, validationToast ∉ requestCalls env (searchText w) context).
  { intros context Hin. pose proof (requestCalls_silent env (searchText w) context) as Hs.
    rewrite Forall_forall in Hs. by apply Hs in Hin. }
  assert (Hother : ∀ c, isNotification c = false → validationToast ≠ c)
    by (by intros c Hc <-).
  destruct Hends; [done|..]; (split; [done|]);
    rewrite ?not_elem_of_app, ?not_elem_of_cons; unfold deliveryCalls;
    rewrite ?not_elem_of_cons;
    repeat split; try apply Hrequest; try apply not_elem_of_nil;
    try (apply Hother; by destruct copyOnly); try done.
  all: try (destruct e; done).
Qed.


Lemma offered_submission_passes_the_guard_witness :
  let w := with_searchText (utf16 "list files") empty_world in
  let added := drop (length (calls w))
                 (calls (snd (@generateCommand ascii_host quiet_env (utf16 "list files")
                                true w))) in
  utf16 "list files" = searchText w
  ∧ head added = Some (Call_Anthropic (anthropicApiKey quiet_env))
  ∧ validationToast ∉ added.
Proof.
  intros w.
  apply (offered_submission_passes_the_guard ascii_host quiet_env w (utf16 "list files")
           true).
  vm_compute. repeat constructor.
Defined.

(** X21.  A recalled prompt is ready to run: when "Use Prompt" is run on an
    entry that the list of a session offers, the next view has the entry as
    its search text, shows the "Generate Command" item for it, offers its
    submission with paste and with copy, and still lists the entry in the
    "History" section.  (An entry of a session is not blank; a blank one
    would leave the list without the "Generate Command" item.) *)
Theorem recalled_prompt_is_ready_to_run (host : Host) (laws : HostLaws host)
    (steps : list (Env * Action)) (item : jsstring) :
  UsePrompt item ∈ offered (Command_render (session steps)) →
  let recalled := Command_render (snd (usePrompt_onAction item (session steps))) in
  view_searchText recalled = item
  ∧ view_generate recalled = Some (generateItem item)
  ∧ (∃ listed, view_history recalled = Some listed ∧ item ∈ item_title <$> listed)
  ∧ ∀ copyOnly, Submit item copyOnly ∈ offered recalled.
Proof.
  intros Hoffered recalled. subst recalled.
  apply offered_recall in Hoffered.
  eapply elem_of_sublist in Hoffered; [|apply filteredHistory_sublist].
  destruct (session_entries steps) as [Hentries _].
  rewrite Forall_forall in Hentries. destruct (Hentries item Hoffered) as [Hnonblank _].
  assert (Htruthy : truthy (trim item) = true) by (by destruct (trim item)).
  apply filteredHistory_keeps_the_query in Hoffered.
  set (w := snd (usePrompt_onAction item (session steps))).
  assert (Hsearch : searchText w = item) by done.
  assert (Hhistory : history w = history (session steps)) by done.
  split; [done|].
  split; [unfold Command_render; cbn [view_generate]; by rewrite Hsearch, Htruthy|].
  split.
  - unfold Command_render. cbn [view_history]. rewrite Hsearch, Hhistory.
    destruct (filteredHistory item (history (session steps))) as [|first others] eqn:Hf;
      [by apply elem_of_nil in Hoffered|].
    eexists. split; [reflexivity|]. by rewrite historyItem_titles.
  - intros copyOnly. rewrite offered_render, Hsearch, Htruthy.
    apply elem_of_app. left. destruct copyOnly; repeat constructor.
Qed.

Lemma recalled_prompt_is_ready_to_run_witness :
  let steps := [(quiet_env, Submit (utf16 "list files") false)] in
  view_generate (@Command_render ascii_host
                   (snd (usePrompt_onAction (utf16 "list files")
                           (@session ascii_host steps))))
  = Some (generateItem (utf16 "list files")).
Proof.
  intros steps.
  refine (proj1 (proj2 (recalled_prompt_is_ready_to_run ascii_host ascii_host_laws steps
                          (utf16 "list files") _))).
  vm_compute. repeat constructor.
Defined.
